(** * A shallow embedding of the RAGPrepTool conversion pipeline

    The Python package [document_processor] is modelled module by module:
    - [Path]: the parts of [os.path] the code relies on (POSIX flavour);
    - [Registry]: [DocumentProcessorFactory] (processor_factory.py);
    - the remaining sections follow the processors, the image utilities,
      the file utilities and the orchestrator [RAGConverter].
    Third-party libraries (PIL, pandas, zipfile, the file system) enter as
    Section variables: the embedded code is parametric in them. *)

From Stdlib Require Import String Ascii ZArith Lia.
From stdpp Require Import base gmap strings list.

Open Scope string_scope.

(* ------------------------------------------------------------------ *)
(** ** os.path on POSIX *)
Module Path.

(** [str.rfind] on a single character: index of the last occurrence. *)
Fixpoint rfind_aux (c : ascii) (l : list ascii) (i : nat) (acc : option nat)
  : option nat :=
  match l with
  | [] => acc
  | x :: r => rfind_aux c r (S i) (if ascii_dec x c then Some i else acc)
  end.

Definition rfind (c : ascii) (l : list ascii) : option nat := rfind_aux c l 0 None.

(** [posixpath.splitext] (via [genericpath._splitext] with sep = "/",
    extsep = "."): the extension starts at the last dot after the last
    separator, unless everything between the separator and that dot is
    dots (leading dots of a hidden file name). *)
Definition splitext (p : string) : string * string :=
  let l := list_ascii_of_string p in
  match rfind "." l with
  | None => (p, "")
  | Some d =>
      let start := match rfind "/" l with None => 0 | Some s => S s end in
      if (start <=? d)%nat
         && existsb (fun a => negb (Ascii.eqb a ".")) (firstn (d - start) (skipn start l))
      then (string_of_list_ascii (firstn d l), string_of_list_ascii (skipn d l))
      else (p, "")
  end.

(** [str.lower] on ASCII letters. *)
Definition lower_ascii (a : ascii) : ascii :=
  let n := nat_of_ascii a in
  if (65 <=? n)%nat && (n <=? 90)%nat then ascii_of_nat (n + 32) else a.

Definition lower (s : string) : string :=
  string_of_list_ascii (map lower_ascii (list_ascii_of_string s)).

End Path.

(* ------------------------------------------------------------------ *)
(** ** DocumentProcessorFactory (processors/processor_factory.py) *)
Module Registry.

(** A processor class, as far as the factory sees it: its name and the
    list returned by its [get_supported_extensions] classmethod. *)
Record processor_class := {
  cls_name : string;
  supported_extensions : list string
}.

Definition PDFProcessor : processor_class :=
  {| cls_name := "PDFProcessor"; supported_extensions := [".pdf"] |}.
Definition MarkdownProcessor : processor_class :=
  {| cls_name := "MarkdownProcessor"; supported_extensions := [".md"; ".markdown"] |}.
Definition PowerPointProcessor : processor_class :=
  {| cls_name := "PowerPointProcessor"; supported_extensions := [".pptx"; ".ppt"] |}.
Definition ExcelCsvProcessor : processor_class :=
  {| cls_name := "ExcelCsvProcessor";
     supported_extensions := [".csv"; ".xlsx"; ".xls"; ".tsv"] |}.
Definition SimpleProcessor : processor_class :=
  {| cls_name := "SimpleProcessor";
     supported_extensions := [".txt"; ".json"; ".py"; ".js"; ".java"; ".cs"; ".c";
                              ".cpp"; ".go"; ".rb"; ".php"; ".rs"; ".kt"; ".swift"] |}.
Definition PandocProcessor : processor_class :=
  {| cls_name := "PandocProcessor";
     supported_extensions := [".docx"; ".doc"; ".rtf"; ".odt"; ".epub";
                              ".html"; ".htm"; ".org"; ".tex"; ".wiki"] |}.

(** [_processor_classes], in registration order. *)
Definition default_processor_classes : list processor_class :=
  [PDFProcessor; MarkdownProcessor; PowerPointProcessor; ExcelCsvProcessor;
   SimpleProcessor; PandocProcessor].

(** [register_processor]: append unless already present (classes are
    compared by identity, here their name). *)
Definition register_processor (classes : list processor_class) (c : processor_class)
  : list processor_class :=
  if existsb (fun c' => String.eqb (cls_name c') (cls_name c)) classes
  then classes else classes ++ [c].

(** [get_all_supported_extensions]: for every class, for every extension,
    [extensions_map[ext] = processor_class]. *)
Definition add_class (m : gmap string processor_class) (c : processor_class)
  : gmap string processor_class :=
  foldl (fun m' e => <[e := c]> m') m (supported_extensions c).

Definition get_all_supported_extensions (classes : list processor_class)
  : gmap string processor_class :=
  foldl add_class ∅ classes.

(** [PandocUtils.is_supported_format], with the cached result of
    [check_installed_locally] as a parameter. *)
Definition pandoc_allow_list : list string :=
  [".docx"; ".odt"; ".epub"; ".html"; ".htm"; ".rtf";
   ".tex"; ".xml"; ".csv"; ".tsv"; ".opml"; ".org"].

Definition is_supported_format (pandoc_installed : bool) (file_path : string) : bool :=
  pandoc_installed
  && existsb (String.eqb (Path.lower (snd (Path.splitext file_path)))) pandoc_allow_list.

(** [create_processor]: the class that gets instantiated. *)
Definition create_processor (classes : list processor_class) (pandoc_installed : bool)
  (file_path : string) : processor_class :=
  let ext := Path.lower (snd (Path.splitext file_path)) in
  match get_all_supported_extensions classes !! ext with
  | Some c => c
  | None => if is_supported_format pandoc_installed file_path
            then PandocProcessor else SimpleProcessor
  end.

(** The last registered class whose extension list contains [ext]. *)
Definition last_claimant (classes : list processor_class) (ext : string)
  : option processor_class :=
  last (List.filter (fun c => existsb (String.eqb ext) (supported_extensions c)) classes).

End Registry.

(* ------------------------------------------------------------------ *)
(** ** Python exceptions *)

(** The outcome of a Python call: a value, or an exception (its [str]). *)
Inductive outcome (A : Type) : Type :=
| Ok (a : A)
| Exc (msg : string).
Arguments Ok {A} a.
Arguments Exc {A} msg.

(** [posixpath.basename]. *)
Definition basename (p : string) : string :=
  let l := list_ascii_of_string p in
  match Path.rfind "/" l with
  | None => p
  | Some s => string_of_list_ascii (skipn (S s) l)
  end.

(* ------------------------------------------------------------------ *)
(** ** The processors' [process] methods *)
Module Processors.

(** A metadata dict; only its keys matter to the claims, values are kept
    as their [str]. *)
Abbreviation metadata := (gmap string string).

(** [(markdown_or_None, metadata)]. *)
Abbreviation conversion_result := (option string * metadata)%type.

(** [BaseDocumentProcessor.get_metadata_base]. *)
Definition get_metadata_base (file_path parser_name : string) : metadata :=
  <["source_filename" := basename file_path]> {[ "parser" := parser_name ]}.

(** [{"error": str(e), **self.get_metadata_base(...)}]. *)
Definition error_metadata (file_path parser_name msg : string) : metadata :=
  <["error" := msg]> (get_metadata_base file_path parser_name).

(** *** SimpleProcessor (processors/simple_processor.py) *)

(** The entries of [FILE_TYPES]. *)
Inductive file_type :=
| FtTxt                      (* ".txt": parser "txt_simple" *)
| FtJson                     (* ".json": parser "json_simple", has error_handler *)
| FtCode (language : string). (* code files: parser "code_simple", metadata_extra *)

Definition code_exts : list string :=
  [".py"; ".js"; ".java"; ".cs"; ".c"; ".cpp"; ".go"; ".rb"; ".php"; ".rs"; ".kt"; ".swift"].

(** [ext.lstrip('.')]. *)
Fixpoint lstrip_dot (l : list ascii) : list ascii :=
  match l with
  | x :: r => if Ascii.eqb x "." then lstrip_dot r else l
  | [] => []
  end.

Definition FILE_TYPES (ext : string) : option file_type :=
  if String.eqb ext ".txt" then Some FtTxt
  else if String.eqb ext ".json" then Some FtJson
  else if existsb (String.eqb ext) code_exts
  then Some (FtCode (string_of_list_ascii (lstrip_dot (list_ascii_of_string ext))))
  else None.

Definition parser_name (ft : file_type) : string :=
  match ft with FtTxt => "txt_simple" | FtJson => "json_simple" | FtCode _ => "code_simple" end.

Definition fence (lang body : string) : string :=
  "```" ++ lang ++ String "010" "" ++ body ++ String "010" "" ++ "```".

Section Simple.
(** [open(file_path, 'r', encoding='utf-8', errors='ignore').read()]. *)
Variable read_text : string -> outcome string.
(** [json.dumps(json.loads(content), indent=2)]; [Exc] on invalid JSON. *)
Variable json_pretty : string -> outcome string.

(** [file_type["formatter"](content)]. *)
Definition formatter (ft : file_type) (content : string) : outcome string :=
  match ft with
  | FtTxt => Ok content
  | FtJson => match json_pretty content with
              | Ok j => Ok (fence "json" j)
              | Exc e => Exc e
              end
  | FtCode lang => Ok (fence lang content)
  end.

Definition simple_process (file_path : string) : conversion_result :=
  let ext := Path.lower (snd (Path.splitext file_path)) in
  let ft := match FILE_TYPES ext with Some ft => ft | None => FtTxt end in
  match read_text file_path with
  | Exc e => (None, error_metadata file_path (parser_name ft) e)
  | Ok content =>
      let md0 := get_metadata_base file_path (parser_name ft) in
      let md := match ft with FtCode lang => <["language" := lang]> md0 | _ => md0 end in
      match formatter ft content with
      | Ok formatted => (Some formatted, md)
      | Exc e =>
          match ft with
          | FtJson => (Some (fence "" content), <["error" := e]> md)
          | _ => (Some content, <["error" := e]> md)
          end
      end
  end.
End Simple.

(** *** MarkdownProcessor.process *)
Section Markdown.
Variable read_text : string -> outcome string.
(** [_process_local_images], which may raise (copying, makedirs). *)
Variable process_local_images : string -> string -> outcome string.

Definition markdown_process (file_path : string) : conversion_result :=
  match read_text file_path with
  | Exc e => (None, error_metadata file_path "md_custom" e)
  | Ok md =>
      match process_local_images file_path md with
      | Exc e => (None, error_metadata file_path "md_custom" e)
      | Ok md' => (Some md', get_metadata_base file_path "md_custom")
      end
  end.
End Markdown.

(** *** PandocProcessor.process *)
Section Pandoc.
(** [PandocUtils.convert_file]: the converted file's path, or [None]. *)
Variable convert_file : string -> outcome (option string).
Variable read_text : string -> outcome string.
(** The YAML front-matter title, if the regex matches. *)
Variable front_matter_title : string -> option string.

Definition pandoc_process (file_path : string) : conversion_result :=
  match convert_file file_path with
  | Exc e => (None, error_metadata file_path "pandoc" e)
  | Ok None =>
      (None, error_metadata file_path "pandoc" "Pandoc conversion failed (MD not generated)")
  | Ok (Some out) =>
      match read_text out with
      | Exc e => (None, error_metadata file_path "pandoc" e)
      | Ok md =>
          let meta := get_metadata_base file_path "pandoc" in
          (Some md, match front_matter_title md with
                    | Some t => <["title" := t]> meta
                    | None => meta end)
      end
  end.
End Pandoc.

(** *** PDFProcessor.process *)
Section Pdf.
(** [_extract_pdf_content]: it catches its own errors and then returns
    [(None, {}, {"error": ...})]; the images are abstracted away. *)
Variable extract_pdf_content : string -> option string * metadata.
(** Image processing and placeholder rewriting, which may raise. *)
Variable process_images : string -> outcome string.

Definition pdf_process (file_path : string) : conversion_result :=
  match extract_pdf_content file_path with
  | (None, _) | (Some "", _) =>
      (None, error_metadata file_path "pdf_pymupdf4llm" "Failed to extract PDF content")
  | (Some md, meta) =>
      match process_images md with
      | Exc e => (None, error_metadata file_path "pdf_pymupdf4llm" e)
      | Ok md' => (Some md', meta)
      end
  end.
End Pdf.

(** *** PowerPointProcessor.process *)
Section PowerPoint.
Variable pptx_available : bool.
(** The body of the [try] in [process_powerpoint_file]. *)
Variable render_deck : string -> outcome (string * metadata).

Definition pptx_error (file_path msg : string) : metadata :=
  <["source_filename" := basename file_path]>
  (<["parser" := "pptx_parser"]> {[ "error" := msg ]}).

Definition process_powerpoint_file (file_path : string) : conversion_result :=
  if negb pptx_available
  then (None, pptx_error file_path "Missing dependency: python-pptx")
  else match render_deck file_path with
       | Exc e => (None, pptx_error file_path e)
       | Ok (md, meta) => (Some md, meta)
       end.

Definition ppt_notice : string := "# PPT Format Notice".

Definition powerpoint_process (file_path : string) : conversion_result :=
  if String.eqb (Path.lower (snd (Path.splitext file_path))) ".ppt"
  then match process_powerpoint_file file_path with
       | (Some md, meta) =>
           if String.eqb md "" || String.prefix "# Error" md
           then (Some md, meta) else (Some (ppt_notice ++ md), meta)
       | r => r
       end
  else process_powerpoint_file file_path.
End PowerPoint.

(** *** ExcelCsvProcessor.process *)
Section Spreadsheet.
Variable pandas_available : bool.
(** [_process_csv_file], [_process_tsv_file], [_process_excel_file]: each
    returns a string on every path, or raises. *)
Variable process_csv_file process_tsv_file process_excel_file
  : string -> outcome (string * metadata).

Definition sheet_error (file_path msg : string) : metadata :=
  <["source_filename" := basename file_path]>
  (<["parser" := "excel_csv_parser"]> {[ "error" := msg ]}).

Definition spreadsheet_process (file_path : string) : conversion_result :=
  if negb pandas_available
  then (None, sheet_error file_path "Missing dependency: pandas")
  else
    let ext := Path.lower (snd (Path.splitext file_path)) in
    let lift r := match r with
                  | Exc e => (None, sheet_error file_path e)
                  | Ok (md, meta) => (Some md, meta)
                  end in
    if String.eqb ext ".csv" then lift (process_csv_file file_path)
    else if String.eqb ext ".tsv" then lift (process_tsv_file file_path)
    else if String.eqb ext ".xlsx" || String.eqb ext ".xls"
    then lift (process_excel_file file_path)
    else (None, sheet_error file_path ("Unsupported format: " ++ ext)).
End Spreadsheet.

(** The regular-CSV failure return of [_process_regular_csv_file] when
    every parsing strategy fails. *)
Definition csv_all_strategies_failed (file_path msg : string) : string * metadata :=
  ("# Error Processing CSV" ++ String "010" (String "010" "") ++ "Failed to process "
     ++ basename file_path ++ ".",
   <["source_filename" := basename file_path]>
   (<["parser" := "pandas_csv"]> {[ "error" := msg ]})).

End Processors.

(* ------------------------------------------------------------------ *)
(** ** Python string methods used on file names *)
Module PyStr.

(** [s.startswith(pre)] on character lists. *)
Fixpoint startswith (pre s : list ascii) : bool :=
  match pre, s with
  | [], _ => true
  | a :: pre', b :: s' => Ascii.eqb a b && startswith pre' s'
  | _ :: _, [] => false
  end.

(** [s.replace(old, new)] for a non-empty [old]: scan left to right and
    replace non-overlapping occurrences. [fuel] bounds the scan; it is
    [length s] in [replace]. *)
Fixpoint replace_fuel (fuel : nat) (old new s : list ascii) : list ascii :=
  match fuel with
  | O => s
  | S fuel' =>
      match s with
      | [] => []
      | c :: r =>
          if startswith old s
          then app new (replace_fuel fuel' old new (skipn (length old) s))
          else c :: replace_fuel fuel' old new r
      end
  end.

Definition replace (old new s : string) : string :=
  let l := list_ascii_of_string s in
  string_of_list_ascii
    (replace_fuel (length l) (list_ascii_of_string old) (list_ascii_of_string new) l).

(** [posixpath.join(a, b)] for two components, [a] not ending in "/". *)
Definition join (a b : string) : string :=
  if startswith ["/"%char] (list_ascii_of_string b) then b else a ++ "/" ++ b.

End PyStr.

(* ------------------------------------------------------------------ *)
(** ** ImageProcessor (utils/image_utils.py) *)
Module Image.

Inductive image_format := PNG | JPEG.
Inductive image_action := Save | Embed | Remove.

(** The [result] dict built by [process_image]. *)
Record result := {
  action : image_action;
  bytes : list Z;
  format : image_format;
  data_uri : option string
}.

(** The library calls [process_image] makes, recorded in order. *)
Inductive op := OpOpen | OpConvertRGB | OpThumbnail | OpEncode | OpEmbedCheck.

(** [config.to_dict()] as the image processor reads it. *)
Record image_config := {
  apply_max_res : bool;
  max_image_res_px : Z;
  exclude_decorative : bool;
  decorative_threshold_px : Z;
  embed_small_images : bool;
  small_image_threshold_kb : Z
}.

(** A state and exception monad: the state is the [result] dict and the
    trace of library calls; on an exception the state reached so far is
    kept (the [except] clauses return [result]). *)
Definition M (A : Type) : Type := result * list op -> outcome A * (result * list op).

Definition ret {A} (a : A) : M A := fun st => (Ok a, st).
Definition bind {A B} (m : M A) (k : A -> M B) : M B :=
  fun st => match m st with
            | (Ok a, st') => k a st'
            | (Exc e, st') => (Exc e, st')
            end.
Definition lift {A} (o : outcome A) : M A := fun st => (o, st).
Definition log (o : op) : M unit := fun '(r, tr) => (Ok tt, (r, app tr [o])).
Definition modify (f : result -> result) : M unit := fun '(r, tr) => (Ok tt, (f r, tr)).

Notation "x <- m ;; k" := (bind m (fun x => k)) (at level 100, m at next level, right associativity).
Notation "m ;;; k" := (bind m (fun _ => k)) (at level 100, right associativity).

Definition set_action (a : image_action) (r : result) : result :=
  {| action := a; bytes := bytes r; format := format r; data_uri := data_uri r |}.
Definition set_bytes (b : list Z) (r : result) : result :=
  {| action := action r; bytes := b; format := format r; data_uri := data_uri r |}.
Definition set_format (f : image_format) (r : result) : result :=
  {| action := action r; bytes := bytes r; format := f; data_uri := data_uri r |}.
Definition set_uri (u : string) (r : result) : result :=
  {| action := action r; bytes := bytes r; format := format r; data_uri := Some u |}.

Definition format_lower (f : image_format) : string :=
  match f with PNG => "png" | JPEG => "jpeg" end.

(** The save format chosen from the suggested file name. *)
Definition save_format_of (filename_suggestion : option string) : image_format :=
  match filename_suggestion with
  | Some f =>
      let ext := Path.lower (snd (Path.splitext f)) in
      if String.eqb ext ".jpg" || String.eqb ext ".jpeg" then JPEG else PNG
  | None => PNG
  end.

Section Pillow.
(** Pillow, as [process_image] uses it. *)
Variable img : Type.
Variable open_image : list Z -> outcome img.          (* Image.open *)
Variables width height : img -> Z.
Variable is_rgb : img -> bool.                         (* img.mode == "RGB" *)
Variable convert_rgb : img -> outcome img.             (* img.convert("RGB") *)
Variable thumbnail : Z -> img -> outcome img.          (* img.thumbnail *)
Variable save : img -> image_format -> outcome (list Z). (* img.save *)
Variable b64encode : list Z -> string.

(** [save_format == "JPEG" and img.mode != "RGB"]. *)
Definition needs_rgb (save_format : image_format) (i : img) : bool :=
  match save_format with JPEG => negb (is_rgb i) | PNG => false end.

(** The image in the mode it is saved in: [img.convert("RGB")] when
    [needs_rgb], the opened image otherwise. *)
Definition to_save_mode (save_format : image_format) (i : img) : outcome img :=
  if needs_rgb save_format i then convert_rgb i else Ok i.

(** Opening the bytes and converting to RGB before a JPEG save. *)
Definition prepare (image_bytes : list Z) (save_format : image_format) : M img :=
  log OpOpen ;;;
  i <- lift (open_image image_bytes) ;;
  (if needs_rgb save_format i then log OpConvertRGB else ret tt) ;;;
  lift (to_save_mode save_format i).

(** The body of the [try] in [process_image]. *)
Definition process_body (cfg : image_config) (image_bytes : list Z)
  (filename_suggestion : option string) : M unit :=
  let save_format := save_format_of filename_suggestion in
  i <- prepare image_bytes save_format ;;
  modify (set_format save_format) ;;;
  if exclude_decorative cfg && (0 <? decorative_threshold_px cfg)%Z
     && (width i <? decorative_threshold_px cfg)%Z
     && (height i <? decorative_threshold_px cfg)%Z
  then modify (set_action Remove)
  else
    i <- (if apply_max_res cfg && (0 <? max_image_res_px cfg)%Z
             && ((max_image_res_px cfg <? width i)%Z || (max_image_res_px cfg <? height i)%Z)
          then log OpThumbnail ;;; lift (thumbnail (max_image_res_px cfg) i)
          else ret i) ;;
    log OpEncode ;;;
    out <- lift (save i save_format) ;;
    modify (set_bytes out) ;;;
    if embed_small_images cfg && (0 <? small_image_threshold_kb cfg)%Z
    then log OpEmbedCheck ;;;
         if (Z.of_nat (length out) <? small_image_threshold_kb cfg * 1024)%Z
         then modify (set_action Embed) ;;;
              modify (set_uri ("data:image/" ++ format_lower save_format ++ ";base64,"
                               ++ b64encode out))
         else ret tt
    else ret tt.

Definition initial_result (image_bytes : list Z) : result :=
  {| action := Save; bytes := image_bytes; format := PNG; data_uri := None |}.

(** The run: the body's outcome, the final dict and the trace. *)
Definition run_process_image (cfg : image_config) (image_bytes : list Z)
  (filename_suggestion : option string) : outcome unit * (result * list op) :=
  process_body cfg image_bytes filename_suggestion (initial_result image_bytes, []).

(** [process_image]: both the normal return and the [except] clauses
    return the dict [result]. *)
Definition process_image (cfg : image_config) (image_bytes : list Z)
  (filename_suggestion : option string) : result :=
  fst (snd (run_process_image cfg image_bytes filename_suggestion)).

(** One entry of [process_pdf_images]: the decision for the image the PDF
    extractor wrote under the name [suggested_name]. *)
Inductive pdf_decision :=
| PdfRemove
| PdfEmbed (data : option string)
| PdfRelink (new_path : string) (file_name : string) (contents : list Z).

Definition pdf_image_decision (cfg : image_config) (img_bytes : list Z)
  (suggested_name : string) : pdf_decision :=
  let '(base_name, ext0) := Path.splitext suggested_name in
  let ext := if existsb (String.eqb (Path.lower ext0))
                  [".png"; ".jpg"; ".jpeg"; ".gif"; ".bmp"] then ext0 else ".png" in
  let r := process_image cfg img_bytes (Some (base_name ++ ext)) in
  match action r with
  | Remove => PdfRemove
  | Embed => PdfEmbed (data_uri r)
  | Save =>
      let final_name := base_name ++ "." ++ format_lower (format r) in
      PdfRelink (PyStr.replace "\" "/" (PyStr.join "media" final_name))
                final_name (bytes r)
  end.

End Pillow.
End Image.

(* ------------------------------------------------------------------ *)
(** ** MarkdownProcessor._process_local_images: the new link of one
    relative image reference *)
Module LocalImages.

(** [os.path.isabs] on POSIX. *)
Definition isabs (p : string) : bool := PyStr.startswith ["/"%char] (list_ascii_of_string p).

Definition skipped (img_path : string) : bool :=
  let l := list_ascii_of_string img_path in
  PyStr.startswith (list_ascii_of_string "http://") l
  || PyStr.startswith (list_ascii_of_string "https://") l
  || PyStr.startswith (list_ascii_of_string "data:") l
  || isabs img_path.

(** [img_path.replace("../", "").replace("./", "").replace(os.sep, "_")]
    with [os.sep = "/"], then ".png" appended when there is no extension. *)
Definition flat_img_name (img_path : string) : string :=
  let flat := PyStr.replace "/" "_" (PyStr.replace "./" "" (PyStr.replace "../" "" img_path)) in
  if String.eqb (snd (Path.splitext flat)) "" then flat ++ ".png" else flat.

Section Links.
(** [os.path.exists(abs) and os.path.isfile(abs)] for the normalised path. *)
Variable image_file_exists : string -> bool.
(** Whether [shutil.copy] to the media folder succeeds. *)
Variable copy_ok : string -> string -> bool.

(** The entry [updated_links[img_path]], if one is made. *)
Definition new_link (img_path : string) : option string :=
  if skipped img_path then None
  else if negb (image_file_exists img_path) then None
  else let flat := flat_img_name img_path in
       if copy_ok img_path flat
       then Some (PyStr.replace "\" "/" (PyStr.join "media" flat))
       else None.
End Links.

End LocalImages.

(* ------------------------------------------------------------------ *)
(** ** ExcelCsvProcessor._score_csv_parsing *)
Module CsvScore.

(** The sampled DataFrame, as [_score_csv_parsing] reads it: column
    labels, rows of cells (as [str] of the cell), and the dtype name of
    each column. *)
Record data_frame := {
  columns : list string;
  rows : list (list string);
  dtypes : list string
}.

(** [df.empty]: one of the axes has length 0. *)
Definition df_empty (df : data_frame) : bool :=
  match columns df, rows df with
  | [], _ | _, [] => true
  | _, _ => false
  end.

Definition has_char (c : ascii) (s : string) : bool :=
  existsb (Ascii.eqb c) (list_ascii_of_string s).

(** [str.count] of a one-character separator. *)
Definition count_char (c : ascii) (s : string) : nat :=
  length (List.filter (Ascii.eqb c) (list_ascii_of_string s)).

(** [str.strip()]: the ASCII characters Python treats as whitespace. *)
Definition is_space (a : ascii) : bool :=
  let n := nat_of_ascii a in
  (n =? 32)%nat || ((9 <=? n)%nat && (n <=? 13)%nat) || ((28 <=? n)%nat && (n <=? 31)%nat).

Fixpoint drop_spaces (l : list ascii) : list ascii :=
  match l with
  | a :: r => if is_space a then drop_spaces r else l
  | [] => []
  end.

Definition strip (s : string) : string :=
  string_of_list_ascii (rev (drop_spaces (rev (drop_spaces (list_ascii_of_string s))))).

(** [[f.readline().strip() for _ in range(k)]]: past the end of the
    file [readline] returns "". *)
Definition read_stripped_lines (file_lines : list string) (k : nat) : list string :=
  map (fun i => strip (nth i file_lines "")) (seq 0 k).

Definition list_max (l : list nat) : nat := fold_right Nat.max 0 l.
Definition list_min (l : list nat) : nat :=
  match l with [] => 0 | x :: r => fold_right Nat.min x r end.

(** The consistency adjustment; [None] when the file cannot be opened or
    decoded with the encoding (the [except Exception: pass]). *)
Definition consistency_bonus (separator : ascii) (file_lines : option (list string))
  (nrows : nat) : Z :=
  match file_lines with
  | None => 0
  | Some ls =>
      let lines := read_stripped_lines ls (Nat.min 10 (nrows + 1)) in
      let separator_counts :=
        map (count_char separator) (List.filter (fun l => negb (String.eqb l "")) lines) in
      match separator_counts with
      | [] => 0
      | c :: cs =>
          if forallb (Nat.eqb c) cs then 20
          else if (list_max separator_counts - list_min separator_counts <=? 1)%nat
          then 10 else -10
      end
  end.

Definition header_point (separator : ascii) (col_str : string) : Z :=
  if negb (Ascii.eqb separator ",") && negb (has_char "," col_str) then 1
  else if negb (Ascii.eqb separator ";") && negb (has_char ";" col_str) then 1
  else if negb (Ascii.eqb separator "009") && negb (has_char "009" col_str) then 1
  else 0.

Definition first_cell (df : data_frame) : string :=
  match rows df with (c :: _) :: _ => c | _ => "" end.

Definition score_csv_parsing (df : data_frame) (separator : ascii)
  (file_lines : option (list string)) : Z :=
  if df_empty df then 0 else
  let num_columns := length (columns df) in
  let score := (10 * Z.of_nat num_columns)%Z in
  let score := if Ascii.eqb separator ";" then (score + 15)%Z else score in
  let score :=
    if (num_columns =? 1)%nat
    then let score := (score - 50)%Z in
         if negb (df_empty df) && (0 <? length (rows df))%nat
         then let fc := first_cell df in
              if Ascii.eqb separator ";" && has_char "," fc then (score - 100)%Z
              else if Ascii.eqb separator "," && has_char ";" fc then (score - 100)%Z
              else score
         else score
    else score in
  let score :=
    if (1 <? num_columns)%nat
    then (score + consistency_bonus separator file_lines (length (rows df)))%Z
    else score in
  let score :=
    if (1 <? num_columns)%nat
    then let numeric_cols := length (List.filter
                              (fun t => String.eqb t "int64" || String.eqb t "float64")
                              (dtypes df)) in
         let text_cols := length (List.filter (String.eqb "object") (dtypes df)) in
         if (0 <? numeric_cols)%nat && (0 <? text_cols)%nat then (score + 15)%Z else score
    else score in
  let score := if (100 <? num_columns)%nat then (score - 30)%Z else score in
  let score :=
    if (1 <? num_columns)%nat
    then (score + 2 * fold_right Z.add 0 (map (header_point separator) (columns df)))%Z
    else score in
  Z.max 0 score.

End CsvScore.

(* ------------------------------------------------------------------ *)
(** ** A concrete Pillow stand-in, for running the image code *)
Module ToyPillow.
Import Image.

(** A toy decoder for concrete runs: the bytes [[1; w; h]] are an RGB
    image of size w x h, [[2; w; h]] a palette image, anything else is
    not an image; encoding writes [[w; h]]. *)
Definition toy_open (b : list Z) : outcome (Z * Z * bool) :=
  match b with
  | [1; w; h] => Ok (w, h, true)
  | [2; w; h] => Ok (w, h, false)
  | _ => Exc "cannot identify image file"
  end%Z.

Definition toy_width (i : Z * Z * bool) : Z := let '(w, _, _) := i in w.
Definition toy_height (i : Z * Z * bool) : Z := let '(_, h, _) := i in h.
Definition toy_is_rgb (i : Z * Z * bool) : bool := let '(_, _, rgb) := i in rgb.
Definition toy_convert (i : Z * Z * bool) : outcome (Z * Z * bool) :=
  let '(w, h, _) := i in Ok (w, h, true).
Definition toy_thumbnail (m : Z) (i : Z * Z * bool) : outcome (Z * Z * bool) :=
  let '(w, h, rgb) := i in Ok (Z.min w m, Z.min h m, rgb).
Definition toy_save (i : Z * Z * bool) (_ : image_format) : outcome (list Z) :=
  let '(w, h, _) := i in Ok [w; h].
Definition toy_b64 (_ : list Z) : string := "QUJD".

Definition toy_run :=
  run_process_image (Z * Z * bool) toy_open toy_width toy_height toy_is_rgb toy_convert
    toy_thumbnail toy_save toy_b64.
Definition toy_process_image :=
  process_image (Z * Z * bool) toy_open toy_width toy_height toy_is_rgb toy_convert
    toy_thumbnail toy_save toy_b64.

Definition cfg_all : image_config :=
  {| apply_max_res := true; max_image_res_px := 100; exclude_decorative := true;
     decorative_threshold_px := 50; embed_small_images := true;
     small_image_threshold_kb := 50 |}.

Definition cfg_none : image_config :=
  {| apply_max_res := false; max_image_res_px := 1200; exclude_decorative := false;
     decorative_threshold_px := 50; embed_small_images := false;
     small_image_threshold_kb := 50 |}.

Definition toy_pdf_image_decision :=
  pdf_image_decision (Z * Z * bool) toy_open toy_width toy_height toy_is_rgb toy_convert
    toy_thumbnail toy_save toy_b64.

End ToyPillow.

(* ------------------------------------------------------------------ *)
(** ** The batch loop: [RAGConverter.process_folder] *)
Module Batch.

(** The messages sent to [status_callback], one constructor per f-string:
    "No supported files found.", "Found {n} supported files.",
    "Starting {name} ({i}/{total})...", "Failed to process {name}." (from
    [process_file_and_package]), "Successfully processed {name}",
    "Failed to process {name}" and "Batch processing complete.". *)
Inductive status :=
| StNoFiles
| StFound (n : nat)
| StStarting (name : string) (i total : nat)
| StProcessFailed (name : string)
| StSuccess (name : string)
| StFailed (name : string)
| StComplete.

Section Folder.
(** [processor.process(...)] of the processor the factory picks for the
    file: the Markdown text ([None] for a null text), or an exception
    escaping [process]. *)
Variable process : string -> outcome (option string).
(** Whether [open(md_filepath_abs, "w").write(md_content)] succeeds (its
    exceptions are caught and turned into [return False]). *)
Variable write_md_ok : string -> bool.
(** [FileUtils.cleanup_nested_media_folders(media_parent_dir)]: it has no
    outer [try], so an [os.listdir] error escapes. *)
Variable cleanup_media : string -> outcome unit.
(** [FileUtils.create_zip_package(...)]: a boolean, or the exception of
    the [os.remove] of its except branch. *)
Variable create_zip_package : string -> outcome bool.
(** [TempDirectory(temp_dir_path).__enter__()] and
    [os.makedirs(common_media_dir, exist_ok=True)] for the file: both can
    raise (a file in the way, no permission). *)
Variable make_temp_dirs : string -> outcome unit.
(** [os.makedirs(output_base_path, exist_ok=True)]. *)
Variable make_output_dir : outcome unit.

(** [process_file_and_package]: its result and the statuses it sends. The
    metadata file is written by [save_metadata], which catches its own
    errors. *)
Definition process_file_and_package (file_path : string) : outcome bool * list status :=
  let original_filename := basename file_path in
  match process file_path with
  | Exc e => (Exc e, [])
  | Ok None => (Ok false, [StProcessFailed original_filename])
  | Ok (Some _) =>
      if write_md_ok file_path then
        match cleanup_media file_path with
        | Exc e => (Exc e, [])
        | Ok _ => (create_zip_package file_path, [])
        end
      else (Ok false, [])
  end.

(** The [with TempDirectory(...)] block of one file: the directories are
    created, then [process_file_and_package] runs. The [__exit__] (with
    [auto_remove=False]) and the later [safe_remove_directory] raise
    nothing. *)
Definition run_file (file_path : string) : outcome bool * list status :=
  match make_temp_dirs file_path with
  | Exc e => (Exc e, [])
  | Ok _ => process_file_and_package file_path
  end.

(** The [for i, file_path in enumerate(files_to_process)] loop. Nothing in
    the body catches an exception ([TempDirectory.__exit__] returns
    [None]), so it leaves the loop. *)
Fixpoint process_files (total i : nat) (files : list string) : outcome unit * list status :=
  match files with
  | [] => (Ok tt, [])
  | file_path :: rest =>
      let original_filename := basename file_path in
      let '(r, st) := run_file file_path in
      match r with
      | Exc e => (Exc e, StStarting original_filename (S i) total :: st)
      | Ok success =>
          let '(r', st') := process_files total (S i) rest in
          (r', StStarting original_filename (S i) total
                 :: app st ((if success then StSuccess original_filename
                             else StFailed original_filename) :: st'))
      end
  end.

(** [process_folder], from the list [_find_supported_files] returns. The
    final [_cleanup_remaining_temp_dirs] catches its own errors. *)
Definition process_folder (files_to_process : list string) : outcome unit * list status :=
  match files_to_process with
  | [] => (Ok tt, [StNoFiles])
  | _ :: _ =>
      let total_files := length files_to_process in
      match make_output_dir with
      | Exc e => (Exc e, [StFound total_files])
      | Ok _ =>
          let '(r, st) := process_files total_files 0 files_to_process in
          match r with
          | Exc e => (Exc e, StFound total_files :: st)
          | Ok _ => (Ok tt, StFound total_files :: app st [StComplete])
          end
      end
  end.

End Folder.
End Batch.

(* ------------------------------------------------------------------ *)
(** ** [FileUtils.create_zip_package] *)
Module Zip.

(** The files of the file system, by path, with their bytes. *)
Abbreviation fsys := (gmap string (list Z)).

Section Package.
(** [write_fails k]: the k-th write to the archive raises ([OSError], a
    full disk, ...): 0 is [zipfile.ZipFile(zip_filepath, 'w')], the entries
    follow, and the last one is the central directory written on close. *)
Variable write_fails : nat -> bool.
(** The archive bytes for the entries written so far. *)
Variable serialize : list (string * list Z) -> list Z.
(** The [(full_path, arcname)] pairs of the [os.walk] of the media folder
    ([] when there is no media folder). *)
Variable media_entries : list (string * string).
(** A directory, not a file, exists at the archive path: [zipfile.ZipFile]
    raises on opening it ([IsADirectoryError]), [os.path.exists] holds for
    it and [os.remove] raises on it. The sources (Markdown, metadata and
    media files) are regular files or absent. *)
Variable zip_is_dir : bool.
(** [os.remove(zip_filepath)] raises on the archive file
    ([PermissionError]: the file is locked by another process, or its
    folder is not writable). *)
Variable remove_fails : bool.

(** [zf.write(src, arcname=arc)] for each pending entry; a missing source
    raises [FileNotFoundError]. *)
Fixpoint write_entries (zip_filepath : string) (k : nat) (todo : list (string * string))
  (written : list (string * list Z)) (fs : fsys) : outcome (list (string * list Z)) * fsys :=
  match todo with
  | [] => (Ok written, fs)
  | (src, arc) :: rest =>
      if write_fails k then (Exc "OSError", fs) else
      match fs !! src with
      | None => (Exc "FileNotFoundError", fs)
      | Some data =>
          let written' := app written [(arc, data)] in
          write_entries zip_filepath (S k) rest written' (<[zip_filepath := serialize written']> fs)
      end
  end.

Definition archive_entries (markdown_filepath markdown_arcname : string)
  (metadata_filepath : option string) (fs : fsys) : list (string * string) :=
  (markdown_filepath, markdown_arcname)
  :: app (match metadata_filepath with
          | Some p => if negb (String.eqb p "") && bool_decide (is_Some (fs !! p))
                      then [(p, "metadata.json")] else []
          | None => []
          end) media_entries.

(** The [with zipfile.ZipFile(...)] block. *)
Definition zip_body (zip_filepath markdown_filepath markdown_arcname : string)
  (metadata_filepath : option string) (fs : fsys) : outcome unit * fsys :=
  if zip_is_dir then (Exc "IsADirectoryError", fs) else
  if write_fails 0 then (Exc "OSError", fs) else
  let fs1 := <[zip_filepath := serialize []]> fs in
  let entries := archive_entries markdown_filepath markdown_arcname metadata_filepath fs1 in
  match write_entries zip_filepath 1 entries [] fs1 with
  | (Exc e, fs2) => (Exc e, fs2)
  | (Ok w, fs2) =>
      if write_fails (S (length entries)) then (Exc "OSError", fs2)
      else (Ok tt, <[zip_filepath := serialize w]> fs2)
  end.

(** [create_zip_package]: the [except] branch removes what exists at the
    archive path; an exception of that [os.remove] escapes the call. *)
Definition create_zip_package (zip_filepath markdown_filepath markdown_arcname : string)
  (metadata_filepath : option string) (fs : fsys) : outcome bool * fsys :=
  match fs !! markdown_filepath with
  | None | Some [] => (Ok false, fs)
  | Some _ =>
      match zip_body zip_filepath markdown_filepath markdown_arcname metadata_filepath fs with
      | (Ok _, fs') => (Ok true, fs')
      | (Exc _, fs') =>
          if zip_is_dir then (Exc "IsADirectoryError", fs')
          else if bool_decide (is_Some (fs' !! zip_filepath)) then
            if remove_fails then (Exc "PermissionError", fs')
            else (Ok false, delete zip_filepath fs')
          else (Ok false, fs')
      end
  end.

End Package.

(** The entry [zf.write] stores for a [(source, arcname)] pair: the
    arcname with the source's bytes. *)
Definition stored (fs : fsys) (e : string * string) : string * list Z :=
  (snd e, default [] (fs !! fst e)).

End Zip.

(* ------------------------------------------------------------------ *)
(** ** [FileUtils.cleanup_nested_media_folders] *)
Module MediaTree.

(** A directory tree: a file with its bytes, or a directory with its
    entries in [os.listdir] order. *)
#[warnings="-register-all"]
Inductive node :=
| File (data : list Z)
| Dir (entries : list (string * node)).

Abbreviation dir := (list (string * node)).

Fixpoint lookup (name : string) (d : dir) : option node :=
  match d with
  | [] => None
  | (n, x) :: r => if String.eqb n name then Some x else lookup name r
  end.

(** Replace the entry [name]. *)
Fixpoint update (name : string) (x : node) (d : dir) : dir :=
  match d with
  | [] => []
  | (n, y) :: r => if String.eqb n name then (n, x) :: r else (n, y) :: update name x r
  end.

(** Remove the entry [name]. *)
Fixpoint remove_entry (name : string) (d : dir) : dir :=
  match d with
  | [] => []
  | (n, y) :: r => if String.eqb n name then r else (n, y) :: remove_entry name r
  end.

(** [os.remove] deletes a file; on a directory it raises
    ([IsADirectoryError] on Linux, [PermissionError] on macOS), which the
    loop logs as a warning. *)
Definition os_remove_ok (x : node) : bool :=
  match x with File _ => true | Dir _ => false end.

(** The loop over [os.listdir(nested_media)]: the entries moved to the
    parent media folder and the entries left in the nested one.
    [shutil.move] to a name not yet in the parent is a rename. *)
Fixpoint move_loop (todo : dir) (existing_files : list string) (moved kept : dir) : dir * dir :=
  match todo with
  | [] => (moved, kept)
  | (filename, x) :: rest =>
      if existsb (String.eqb filename) existing_files then
        if os_remove_ok x then move_loop rest existing_files moved kept
        else move_loop rest existing_files moved (app kept [(filename, x)])
      else move_loop rest (filename :: existing_files) (app moved [(filename, x)]) kept
  end.

(** The normalizer on [output_dir], given as its list of entries. *)
Definition cleanup_nested_media_folders (output_dir : dir) : dir :=
  match lookup "media" output_dir with
  | Some (Dir media) =>
      match lookup "media" media with
      | Some (Dir nested) =>
          let '(moved, kept) := move_loop nested (map fst media) [] [] in
          let media1 := app (update "media" (Dir kept) media) moved in
          let media2 := match kept with [] => remove_entry "media" media1 | _ :: _ => media1 end in
          update "media" (Dir media2) output_dir
      | _ => output_dir
      end
  | _ => output_dir
  end.

(** The contents of [output_dir/media]. *)
Definition media_contents (output_dir : dir) : option node := lookup "media" output_dir.

End MediaTree.

(* ------------------------------------------------------------------ *)
(** ** Image download options: [ConverterConfig], [PandocProcessor] and
    [PandocUtils._predownload_external_images] *)
Module DownloadOptions.

(** The Python values the options hold. *)
Inductive pyval :=
| VBool (b : bool)
| VInt (z : Z)
| VStr (s : string)
| VNone.

Abbreviation py_dict := (gmap string pyval).

(** [d.get(key, default)]. *)
Definition dict_get (d : py_dict) (key : string) (default : pyval) : pyval :=
  match d !! key with Some v => v | None => default end.

(** Truth value of the values used here. *)
Definition truthy (v : pyval) : bool :=
  match v with
  | VBool b => b
  | VInt z => negb (Z.eqb z 0)
  | VStr s => negb (String.eqb s "")
  | VNone => false
  end.

(** The attributes [ConverterConfig.__init__] sets. *)
Record converter_config := {
  apply_max_res : pyval;
  max_image_res_px : pyval;
  exclude_decorative : pyval;
  decorative_threshold_px : pyval;
  embed_small_images : pyval;
  small_image_threshold_kb : pyval;
  max_rows_display : pyval;
  max_columns_display : pyval;
  pandoc_toc : pyval
}.

Definition ConverterConfig (config_dict : py_dict) : converter_config :=
  {| apply_max_res := dict_get config_dict "apply_max_res" (VBool false);
     max_image_res_px := dict_get config_dict "max_image_res_px" (VInt 1200);
     exclude_decorative := dict_get config_dict "exclude_decorative" (VBool false);
     decorative_threshold_px := dict_get config_dict "decorative_threshold_px" (VInt 50);
     embed_small_images := dict_get config_dict "embed_small_images" (VBool false);
     small_image_threshold_kb := dict_get config_dict "small_image_threshold_kb" (VInt 50);
     max_rows_display := dict_get config_dict "max_rows_display" (VInt 1000);
     max_columns_display := dict_get config_dict "max_columns_display" (VInt 50);
     pandoc_toc := dict_get config_dict "pandoc_toc" (VBool false) |}.

(** [getattr(self, key, None)] over the instance attributes. *)
Definition attribute (c : converter_config) (key : string) : option pyval :=
  if String.eqb key "apply_max_res" then Some (apply_max_res c)
  else if String.eqb key "max_image_res_px" then Some (max_image_res_px c)
  else if String.eqb key "exclude_decorative" then Some (exclude_decorative c)
  else if String.eqb key "decorative_threshold_px" then Some (decorative_threshold_px c)
  else if String.eqb key "embed_small_images" then Some (embed_small_images c)
  else if String.eqb key "small_image_threshold_kb" then Some (small_image_threshold_kb c)
  else if String.eqb key "max_rows_display" then Some (max_rows_display c)
  else if String.eqb key "max_columns_display" then Some (max_columns_display c)
  else if String.eqb key "pandoc_toc" then Some (pandoc_toc c)
  else None.

(** [ConverterConfig.get]: [getattr(self, key, default)]. *)
Definition config_get (c : converter_config) (key : string) (default : pyval) : pyval :=
  match attribute c key with Some v => v | None => default end.

(** The [pandoc_options] dict [PandocProcessor.process] builds. *)
Definition pandoc_options (c : converter_config) : py_dict :=
  <["images" := VStr "separate"]>
  (<["standalone" := VBool true]>
  (<["toc" := config_get c "pandoc_toc" (VBool false)]>
  (<["limit_image_download" := config_get c "limit_image_download" (VBool false)]>
  {[ "image_download_timeout" := config_get c "image_download_timeout" (VInt 120) ]}))).

(** The [timeout] [_predownload_external_images] passes to
    [_download_images_parallel], and from there to [requests.get]; [VNone]
    is a request with no time limit. *)
Definition download_timeout (options : py_dict) : pyval :=
  if truthy (dict_get options "limit_image_download" (VBool true))
  then dict_get options "image_download_timeout" (VInt 90)
  else VNone.

(** [RAGConverter(config)] wraps a dict in a [ConverterConfig]; the
    options of a conversion run are those of the Pandoc processor built
    from it. *)
Definition run_download_timeout (config_dict : py_dict) : pyval :=
  download_timeout (pandoc_options (ConverterConfig config_dict)).

(** The dict [ui.py] passes, with the checkbox on and a timeout of 90. *)
Definition ui_config : py_dict :=
  <["limit_image_download" := VBool true]> {[ "image_download_timeout" := VInt 90 ]}.

End DownloadOptions.

(* ------------------------------------------------------------------ *)
(** ** [DocumentProcessorFactory.can_process] and
    [RAGConverter._find_supported_files] *)
Module Factory.
Import Registry.

(** [DocumentProcessorFactory.can_process]. *)
Definition factory_can_process (classes : list processor_class) (pandoc_installed : bool)
  (file_path : string) : bool :=
  let ext := Path.lower (snd (Path.splitext file_path)) in
  match get_all_supported_extensions classes !! ext with
  | Some _ => true
  | None => is_supported_format pandoc_installed file_path
  end.

Definition ends_with_slash (a : string) : bool :=
  match last (list_ascii_of_string a) with
  | Some x => Ascii.eqb x "/"
  | None => false
  end.

(** [posixpath.join(a, b)] for two components. *)
Definition join_path (a b : string) : string :=
  if PyStr.startswith ["/"%char] (list_ascii_of_string b) then b
  else if String.eqb a "" || ends_with_slash a then a ++ b
  else a ++ "/" ++ b.

(** [_find_supported_files]: [listing] is [os.listdir(folder_path)], each
    name with the result of [os.path.isfile] on its path. *)
Fixpoint find_supported_files (classes : list processor_class) (pandoc_available : bool)
  (folder_path : string) (listing : list (string * bool)) : list string :=
  match listing with
  | [] => []
  | (f_name, is_file) :: rest =>
      let f_path := join_path folder_path f_name in
      let ext := Path.lower (snd (Path.splitext f_name)) in
      let found := find_supported_files classes pandoc_available folder_path rest in
      if negb is_file then found
      else if bool_decide (is_Some (get_all_supported_extensions classes !! ext))
      then f_path :: found
      else if pandoc_available && is_supported_format pandoc_available f_path
      then f_path :: found
      else found
  end.

End Factory.

(* ------------------------------------------------------------------ *)
(** ** [BaseDocumentProcessor.can_process] and its overrides *)
Module BaseProcessor.
Import Registry.

(** [s.endswith(suf)]. *)
Definition endswith (suf s : list ascii) : bool := PyStr.startswith (rev suf) (rev s).

(** [_is_common_temp_file(file_path)]. *)
Definition is_common_temp_file (file_path : string) : bool :=
  let filename := basename file_path in
  let l := list_ascii_of_string filename in
  PyStr.startswith ["~"; "$"]%char l
  || PyStr.startswith ["."; "~"]%char l
  || endswith (list_ascii_of_string ".tmp") l
  || endswith (list_ascii_of_string ".bak") l
  || existsb (String.eqb (Path.lower filename)) ["thumbs.db"; "desktop.ini"; ".ds_store"].

(** An argument of a Python call. *)
Inductive arg :=
| ArgClass (c : processor_class)
| ArgStr (s : string).

(** Calling [cls._is_common_temp_file(...)] with the explicit arguments
    [args]: the classmethod has the parameters [(cls, file_path)] and
    Python binds [cls] itself, so exactly one explicit argument fits; a
    class in the [file_path] slot makes [os.path.basename] raise. *)
Definition call_is_common_temp_file (args : list arg) : outcome bool :=
  match args with
  | [ArgStr file_path] => Ok (is_common_temp_file file_path)
  | [ArgClass _] => Exc "TypeError: expected str, bytes or os.PathLike object"
  | _ => Exc "TypeError: _is_common_temp_file() takes 2 positional arguments"
  end.

(** [BaseDocumentProcessor.can_process]: the call is written
    [cls._is_common_temp_file(cls, file_path)]. *)
Definition base_can_process (cls : processor_class) (file_path : string) : outcome bool :=
  match call_is_common_temp_file [ArgClass cls; ArgStr file_path] with
  | Exc e => Exc e
  | Ok true => Ok false
  | Ok false =>
      let ext := Path.lower (snd (Path.splitext file_path)) in
      Ok (existsb (String.eqb ext) (supported_extensions cls))
  end.

(** [PDFProcessor.can_process]. *)
Definition pdf_can_process (file_path : string) : outcome bool :=
  match base_can_process PDFProcessor file_path with
  | Exc e => Exc e
  | Ok false => Ok false
  | Ok true => Ok true
  end.

(** [PowerPointProcessor.can_process]. *)
Definition powerpoint_can_process (file_path : string) : outcome bool :=
  base_can_process PowerPointProcessor file_path.

(** [ExcelCsvProcessor.can_process]. *)
Definition excel_can_process (file_path : string) : outcome bool :=
  match base_can_process ExcelCsvProcessor file_path with
  | Exc e => Exc e
  | Ok false => Ok false
  | Ok true =>
      if PyStr.startswith ["~"; "$"]%char (list_ascii_of_string (basename file_path))
      then Ok false
      else let ext := Path.lower (snd (Path.splitext file_path)) in
           Ok (existsb (String.eqb ext) (supported_extensions ExcelCsvProcessor))
  end.

End BaseProcessor.

(* ------------------------------------------------------------------ *)
(** ** [PowerPointProcessor.get_image_extension] *)
Module ImageExtension.

(** [bytes.startswith(pre)]. *)
Fixpoint bytes_startswith (pre b : list Z) : bool :=
  match pre, b with
  | [], _ => true
  | x :: pre', y :: b' => Z.eqb x y && bytes_startswith pre' b'
  | _ :: _, [] => false
  end.

Definition bytes_of (s : string) : list Z :=
  map (fun a => Z.of_nat (nat_of_ascii a)) (list_ascii_of_string s).

(** The magic-byte checks, in the order the code makes them. *)
Definition magic_extension (image_bytes : list Z) : string :=
  if bytes_startswith [255; 216]%Z image_bytes then ".jpg"
  else if bytes_startswith [137; 80; 78; 71; 13; 10; 26; 10]%Z image_bytes then ".png"
  else if bytes_startswith (bytes_of "GIF87a") image_bytes
          || bytes_startswith (bytes_of "GIF89a") image_bytes then ".gif"
  else if bytes_startswith [66; 77]%Z image_bytes then ".bmp"
  else if bytes_startswith [73; 73; 42; 0]%Z image_bytes
          || bytes_startswith [77; 77; 0; 42]%Z image_bytes then ".tif"
  else if bytes_startswith (bytes_of "RIFF") image_bytes
          && bytes_startswith (bytes_of "WEBP") (firstn 4 (skipn 8 image_bytes))
          && Nat.eqb (length (firstn 4 (skipn 8 image_bytes))) 4 then ".webp"
  else ".png".

Section Pillow.
(** [(Image.open(BytesIO(image_bytes)).format or '')], or the exception
    [Image.open] raises. *)
Variable pillow_format : list Z -> outcome string.

Definition get_image_extension (image_bytes : list Z) : option string :=
  match pillow_format image_bytes with
  | Ok fmt0 =>
      let fmt := Path.lower fmt0 in
      if String.eqb fmt "jpeg" then Some ".jpg"
      else if negb (String.eqb fmt "") then Some ("." ++ fmt)
      else Some (magic_extension image_bytes)
  | Exc _ => Some (magic_extension image_bytes)
  end.
End Pillow.

End ImageExtension.

(* ------------------------------------------------------------------ *)
(** ** [safe_remove_directory] *)
Module SafeRemove.

(** What one [shutil.rmtree] call does. *)
Inductive rmtree_outcome := RmOk | RmPermissionError | RmOtherError.

Section Attempts.
(** The outcome of the [shutil.rmtree] call of attempt [k]. *)
Variable rmtree : nat -> rmtree_outcome.

(** The [for attempt in range(...)] loop from [attempt] on, with [fuel]
    attempts left: the result and the [rmtree] calls made. From the second
    attempt on, [time.sleep(delay)] runs first, inside the [try]; a negative
    [delay] makes it raise [ValueError], caught by [except Exception]. *)
Fixpoint remove_attempts (delay : Z) (attempt fuel : nat) : bool * list nat :=
  match fuel with
  | O => (false, [])
  | S fuel' =>
      if Nat.ltb 0 attempt && Z.ltb delay 0 then (false, [])
      else
      match rmtree attempt with
      | RmOk => (true, [attempt])
      | RmPermissionError =>
          let '(r, tried) := remove_attempts delay (S attempt) fuel' in (r, attempt :: tried)
      | RmOtherError => (false, [attempt])
      end
  end.

Definition safe_remove_directory (dir_exists : bool) (max_attempts delay : Z) : bool * list nat :=
  if negb dir_exists then (true, [])
  else remove_attempts delay 0 (Z.to_nat max_attempts).
End Attempts.

End SafeRemove.

(* ------------------------------------------------------------------ *)
(** ** [ConverterConfig.to_dict] and [from_dict] *)
Module ConfigDict.
Import DownloadOptions.

Definition to_dict (c : converter_config) : py_dict :=
  <["apply_max_res" := apply_max_res c]>
  (<["max_image_res_px" := max_image_res_px c]>
  (<["exclude_decorative" := exclude_decorative c]>
  (<["decorative_threshold_px" := decorative_threshold_px c]>
  (<["embed_small_images" := embed_small_images c]>
  (<["small_image_threshold_kb" := small_image_threshold_kb c]>
  (<["max_rows_display" := max_rows_display c]>
  (<["max_columns_display" := max_columns_display c]>
  {[ "pandoc_toc" := pandoc_toc c ]}))))))).

Definition from_dict (config_dict : py_dict) : converter_config := ConverterConfig config_dict.

End ConfigDict.

(* ------------------------------------------------------------------ *)
(** ** Text helpers of [ExcelCsvProcessor] *)
Module ExcelText.
Import CsvScore.

Definition nl : string := String "010" "".
Definition cr : string := String "013" "".
Definition crlf : string := String "013" (String "010" "").

(** [s[:n]]. *)
Definition take_str (n : nat) (s : string) : string := substring 0 n s.

(** [sep.join(parts)]. *)
Fixpoint py_join (sep : string) (parts : list string) : string :=
  match parts with
  | [] => ""
  | [x] => x
  | x :: rest => x ++ sep ++ py_join sep rest
  end.

(** [_clean_column_name]: [col_name] is [None] or [str(col_name)]. *)
Definition clean_column_name (col_name : option string) : string :=
  match col_name with
  | None => "Unnamed_Column"
  | Some name =>
      if existsb (String.eqb (strip name)) [""; "nan"; "NaN"; "None"]
      then "Unnamed_Column"
      else
        let clean_name := strip name in
        let clean_name :=
          PyStr.replace cr " " (PyStr.replace nl " " (PyStr.replace "|" "_" clean_name)) in
        if (50 <? String.length clean_name)%nat
        then take_str 47 clean_name ++ "..."
        else clean_name
  end.

(** [re.sub(r'\s+', ' ', s)]: every maximal run of whitespace becomes one
    space; [in_run] tells whether the previous character was whitespace. *)
Fixpoint collapse_ws_aux (in_run : bool) (l : list ascii) : list ascii :=
  match l with
  | [] => []
  | x :: r =>
      if is_space x
      then if in_run then collapse_ws_aux true r else " "%char :: collapse_ws_aux true r
      else x :: collapse_ws_aux false r
  end.

Definition collapse_ws (s : string) : string :=
  string_of_list_ascii (collapse_ws_aux false (list_ascii_of_string s)).

(** [_clean_cell_content]: [cell_value] is [None] or [str(cell_value)]. *)
Definition clean_cell_content (cell_value : option string) : string :=
  match cell_value with
  | None => ""
  | Some v =>
      if String.eqb v "" || String.eqb (strip v) ""
         || existsb (String.eqb (Path.lower v)) ["nan"; "none"; "null"]
      then ""
      else
        let content := strip v in
        let content := PyStr.replace crlf " " content in
        let content := PyStr.replace nl " " content in
        let content := PyStr.replace cr " " content in
        let content := collapse_ws content in
        let content := PyStr.replace "|" "\|" content in
        let content := PyStr.replace "[" "\[" content in
        let content := PyStr.replace "]" "\]" content in
        let content :=
          if (500 <? String.length content)%nat then take_str 497 content ++ "..." else content in
        strip content
  end.

(** One cell of [_create_markdown_table_fallback], given [str(cell)]. *)
Definition fallback_cell (cell : string) : string :=
  if String.eqb cell "" || String.eqb (strip cell) "" then ""
  else
    let cell_str := PyStr.replace cr " " (PyStr.replace nl " " (PyStr.replace "|" "\|" cell)) in
    if (100 <? String.length cell_str)%nat then take_str 97 cell_str ++ "..." else cell_str.

(** [_create_markdown_table_fallback]: columns and cells as [str] gives them. *)
Definition create_markdown_table_fallback (df : data_frame) : string :=
  if df_empty df then "*No data to display*"
  else
    let headers := columns df in
    let header_row := "| " ++ py_join " | " headers ++ " |" in
    let separator_row := "| " ++ py_join " | " (map (fun _ => "---") headers) ++ " |" in
    let data_rows := map (fun row => "| " ++ py_join " | " (map fallback_cell row) ++ " |")
                         (rows df) in
    py_join nl (header_row :: separator_row :: data_rows).

(** One cell of [_create_bundle_table_fallback] in the column [col],
    given [str(cell)] ([str] of [None] and of a NaN float are "None" and
    "nan", which the emptiness test catches). *)
Definition bundle_cell (col cell : string) : string :=
  if existsb (String.eqb (Path.lower (strip cell))) ["nan"; "none"; "null"] then ""
  else
    let cell_str := PyStr.replace cr " " (PyStr.replace nl " " (PyStr.replace "|" "\|" cell)) in
    let key_column := existsb (String.eqb (Path.lower col)) ["bundle"; "key"] in
    if negb key_column && (150 <? String.length cell_str)%nat
    then take_str 147 cell_str ++ "..."
    else if (50 <? String.length cell_str)%nat && key_column
    then take_str 47 cell_str ++ "..."
    else cell_str.

(** [_create_bundle_table_fallback]: each row is zipped with the headers. *)
Definition create_bundle_table_fallback (df : data_frame) : string :=
  if df_empty df then "*No translation data to display*"
  else
    let headers := columns df in
    let header_row := "| " ++ py_join " | " headers ++ " |" in
    let separator_row := "| " ++ py_join " | " (map (fun _ => "---") headers) ++ " |" in
    let data_rows := map (fun row => "| " ++ py_join " | " (zip_with bundle_cell headers row) ++ " |")
                         (rows df) in
    py_join nl (header_row :: separator_row :: data_rows).

(** [s.split('\n')]. *)
Fixpoint split_lines_aux (cur : list ascii) (l : list ascii) : list string :=
  match l with
  | [] => [string_of_list_ascii (rev cur)]
  | x :: r =>
      if Ascii.eqb x "010" then string_of_list_ascii (rev cur) :: split_lines_aux [] r
      else split_lines_aux (x :: cur) r
  end.

Definition split_lines (s : string) : list string := split_lines_aux [] (list_ascii_of_string s).

(** The occurrences of [c] in [l] not preceded by a backslash; [prev] is
    the character before [l]. *)
Fixpoint unescaped_count (c : ascii) (prev : option ascii) (l : list ascii) : nat :=
  match l with
  | [] => 0
  | x :: r =>
      (if Ascii.eqb x c && negb (bool_decide (prev = Some "\"%char)) then 1 else 0)
      + unescaped_count c (Some x) r
  end.

(** The '|' of a line that are not preceded by a backslash: the column
    separators a Markdown table reader sees. *)
Definition unescaped_pipes (s : string) : nat :=
  unescaped_count "|" None (list_ascii_of_string s).

End ExcelText.

(* ------------------------------------------------------------------ *)
(** ** [ExcelCsvProcessor._process_dataframe] *)
Module DataFrameDisplay.
Import CsvScore ExcelText.

(** [str(n)] of a Python int. *)
Fixpoint digits_aux (fuel : nat) (n : N) (acc : string) : string :=
  match fuel with
  | O => acc
  | S fuel' =>
      let acc' := String (ascii_of_N (48 + N.modulo n 10)) acc in
      if (n <? 10)%N then acc' else digits_aux fuel' (N.div n 10) acc'
  end.

Definition str_int (z : Z) : string :=
  let n := Z.to_N (Z.abs z) in
  (if (z <? 0)%Z then "-" else "") ++ digits_aux (S (N.size_nat n)) n "".

(** [seq[:k]] on a sequence of length [len]: the number of items kept
    ([df.head(k)] and [df.iloc[:, :k]] keep as many). *)
Definition prefix_len (k : Z) (len : nat) : nat :=
  if (0 <=? k)%Z then Nat.min (Z.to_nat k) len
  else Z.to_nat (Z.max 0 (Z.of_nat len + k)).

Record df_metadata := {
  source_filename : string;
  parser : string;
  md_file_type : string;
  total_rows : nat;
  total_columns : nat;
  displayed_rows : nat;
  displayed_columns : nat;
  column_names : list string
}.

Section Display.
(** [self._dataframe_to_markdown(df)] (tabulate, or the fallback). *)
Variable dataframe_to_markdown : data_frame -> string.
Variables max_rows_display max_columns_display : Z.

(** The [md_content] lines and the metadata [_process_dataframe] builds. *)
Definition dataframe_md_content (df : data_frame) (filename file_type metadata_type : string)
  : list string * df_metadata :=
  let original_rows := length (rows df) in
  let original_cols := length (columns df) in
  let df :=
    if (Z.of_nat (length (rows df)) >? max_rows_display)%Z
    then {| columns := columns df;
            rows := firstn (prefix_len max_rows_display (length (rows df))) (rows df);
            dtypes := dtypes df |}
    else df in
  let df :=
    if (Z.of_nat (length (columns df)) >? max_columns_display)%Z
    then let k := prefix_len max_columns_display (length (columns df)) in
         {| columns := firstn k (columns df);
            rows := map (firstn k) (rows df);
            dtypes := firstn k (dtypes df) |}
    else df in
  let md_content :=
    ["# " ++ filename ++ nl;
     "**File Type:** " ++ file_type;
     "**Dimensions:** " ++ str_int (Z.of_nat original_rows) ++ " rows × "
       ++ str_int (Z.of_nat original_cols) ++ " columns"] in
  let md_content :=
    if (Z.of_nat original_rows >? max_rows_display)%Z
       || (Z.of_nat original_cols >? max_columns_display)%Z
    then app md_content ["**Note:** Data truncated for display (showing "
                          ++ str_int (Z.of_nat (length (rows df))) ++ " rows × "
                          ++ str_int (Z.of_nat (length (columns df))) ++ " columns)"]
    else md_content in
  let md_content := app md_content [nl ++ "## Data" ++ nl] in
  let df :=
    if df_empty df then df
    else {| columns := map (fun c => clean_column_name (Some c)) (columns df);
            rows := rows df; dtypes := dtypes df |} in
  let md_content :=
    app md_content [if df_empty df then "*No data found in file*"
                    else dataframe_to_markdown df] in
  let metadata :=
    {| source_filename := filename;
       parser := metadata_type;
       md_file_type := file_type;
       total_rows := original_rows;
       total_columns := original_cols;
       displayed_rows := length (rows df);
       displayed_columns := length (columns df);
       column_names := if df_empty df then [] else columns df |} in
  (md_content, metadata).

(** [_process_dataframe]: [("\n".join(md_content), metadata)]. *)
Definition process_dataframe (df : data_frame) (filename file_type metadata_type : string)
  : string * df_metadata :=
  let '(md_content, metadata) := dataframe_md_content df filename file_type metadata_type in
  (py_join nl md_content, metadata).

End Display.

End DataFrameDisplay.

(* ------------------------------------------------------------------ *)
(** ** The output names of [process_folder] *)

Module FolderNaming.
Import Factory.

(** The names [process_folder] derives for one input file: the Markdown
    name inside the ZIP, the temporary directory and the ZIP path. *)
Definition output_paths (output_base_path output_filename_suffix file_path : string)
  : string * string * string :=
  let original_filename := basename file_path in
  let base_name_no_ext := fst (Path.splitext original_filename) in
  let zip_name_base :=
    if String.eqb output_filename_suffix "" then base_name_no_ext
    else base_name_no_ext ++ "_" ++ output_filename_suffix in
  let md_filename_in_zip := zip_name_base ++ ".md" in
  let temp_dir_path := join_path output_base_path (zip_name_base ++ "_temp") in
  let zip_filepath_abs := join_path output_base_path (zip_name_base ++ ".zip") in
  (md_filename_in_zip, temp_dir_path, zip_filepath_abs).

End FolderNaming.

(** A flat media name: no "/" and not "", "." or "..". *)
Definition flat_name (n : string) : Prop :=
  ~ In "/"%char (list_ascii_of_string n) /\ n <> "" /\ n <> "." /\ n <> "..".

(* ================================================================== *)
(** * Proofs *)

(* ------------------------------------------------------------------ *)
(** ** Registry *)
Section RegistryProofs.
Import Registry.

Lemma add_exts_lookup (c : processor_class) (es : list string)
    (m : gmap string processor_class) (ext : string) :
  foldl (fun m' e => <[e := c]> m') m es !! ext
  = if existsb (String.eqb ext) es then Some c else m !! ext.
Proof.
  revert m. induction es as [|e es IH]; intros m; simpl; [done|].
  rewrite IH. destruct (String.eqb_spec ext e) as [->|Hne]; simpl.
  - destruct (existsb _ es); [done|]. by rewrite lookup_insert_eq.
  - destruct (existsb _ es); [done|]. rewrite lookup_insert_ne; congruence.
Qed.

Lemma fold_classes_lookup (classes : list processor_class)
    (m : gmap string processor_class) (ext : string) :
  foldl add_class m classes !! ext
  = match last_claimant classes ext with Some c => Some c | None => m !! ext end.
Proof.
  revert m. induction classes as [|c cs IH]; intros m; simpl; [done|].
  rewrite IH. unfold last_claimant. cbn [List.filter].
  unfold add_class. rewrite add_exts_lookup.
  destruct (last (List.filter _ cs)) as [c'|] eqn:Hl;
    destruct (existsb (String.eqb ext) (supported_extensions c));
    rewrite ?last_cons, ?Hl; done.
Qed.

(** The extension map binds each extension to its last claimant. *)
Lemma extensions_map_last (classes : list processor_class) (ext : string) :
  get_all_supported_extensions classes !! ext = last_claimant classes ext.
Proof.
  unfold get_all_supported_extensions. rewrite fold_classes_lookup.
  by destruct (last_claimant classes ext).
Qed.

Example default_dispatch :
  cls_name (create_processor default_processor_classes false "Report.PDF") = "PDFProcessor"
  /\ cls_name (create_processor default_processor_classes true "page.xml") = "PandocProcessor"
  /\ cls_name (create_processor default_processor_classes false "a.zip") = "SimpleProcessor".
Proof. vm_compute. auto. Qed.

(** C3 (counterexample): with two registered classes both claiming ".x",
    the extension map binds ".x" to the second one and dispatch for a
    ".x" file instantiates the second one, not the first. *)
Lemma duplicate_extension_first_not_kept :
  let A := {| cls_name := "A"; supported_extensions := [".x"] |} in
  let B := {| cls_name := "B"; supported_extensions := [".x"] |} in
  get_all_supported_extensions [A; B] !! ".x" = Some B
  /\ get_all_supported_extensions [A; B] !! ".x" <> Some A
  /\ create_processor [A; B] false "notes.x" <> A.
Proof. vm_compute. split; [done|]. split; discriminate. Qed.

(** C3 (amended): the extension map binds every extension to the last
    registered class claiming it (later registrants override earlier
    ones), and dispatch for a file instantiates that class, falling back
    to the Pandoc predicate and then to SimpleProcessor when no class
    claims the extension. *)
Theorem registry_last_registration_wins
    (classes : list processor_class) (pandoc_installed : bool) (file_path : string) :
  let ext := Path.lower (snd (Path.splitext file_path)) in
  get_all_supported_extensions classes !! ext = last_claimant classes ext
  /\ create_processor classes pandoc_installed file_path
     = match last_claimant classes ext with
       | Some c => c
       | None => if is_supported_format pandoc_installed file_path
                 then PandocProcessor else SimpleProcessor
       end.
Proof.
  simpl. split; [apply extensions_map_last|].
  unfold create_processor. by rewrite extensions_map_last.
Qed.

End RegistryProofs.

(* ------------------------------------------------------------------ *)
(** ** Processor results *)
Section ProcessorProofs.
Import Processors.

Ltac error_key_present :=
  repeat (match goal with
          | |- context [match ?x with _ => _ end] =>
              lazymatch x with
              | context [match _ with _ => _ end] => fail
              | _ => destruct x eqn:?
              end
          end; simpl in *);
  intros; try discriminate;
  unfold error_metadata, pptx_error, sheet_error in *;
  simplify_map_eq; eauto.

Example simple_txt_passthrough :
  simple_process (fun _ => Ok "") (fun _ => Exc "unused") "notes.txt"
  = (Some "", get_metadata_base "notes.txt" "txt_simple").
Proof. reflexivity. Qed.

(** C1 (counterexample): a .json file holding invalid JSON converts to a
    fenced plain code block around the raw text, and its metadata has an
    "error" key: the text is not null although the key is present. The
    same holds for the regular-CSV return when all strategies fail. *)
Lemma invalid_json_text_with_error :
  let r := simple_process (fun _ => Ok "{bad") (fun _ => Exc "Expecting value")
             "data.json" in
  fst r = Some (fence "" "{bad")
  /\ snd r !! "error" = Some "Expecting value"
  /\ ~ (fst r = None <-> is_Some (snd r !! "error"))
  /\ ~ (Some (fst (csv_all_strategies_failed "t.csv" "bad")) = None
        <-> is_Some (snd (csv_all_strategies_failed "t.csv" "bad") !! "error")).
Proof.
  vm_compute. split; [done|]. split; [done|]. split.
  - intros [_ H]. discriminate (H (ex_intro _ _ eq_refl)).
  - intros [_ H]. discriminate (H (ex_intro _ _ eq_refl)).
Qed.

(** C1 (amended): for every processor and every behaviour of the
    libraries it calls, a null Markdown text always comes with an "error"
    key in the metadata. *)
Theorem null_markdown_implies_error :
  (forall read_text json_pretty f,
      fst (simple_process read_text json_pretty f) = None ->
      is_Some (snd (simple_process read_text json_pretty f) !! "error"))
  /\ (forall read_text local_images f,
      fst (markdown_process read_text local_images f) = None ->
      is_Some (snd (markdown_process read_text local_images f) !! "error"))
  /\ (forall convert read_text title f,
      fst (pandoc_process convert read_text title f) = None ->
      is_Some (snd (pandoc_process convert read_text title f) !! "error"))
  /\ (forall extract images f,
      fst (pdf_process extract images f) = None ->
      is_Some (snd (pdf_process extract images f) !! "error"))
  /\ (forall avail deck f,
      fst (powerpoint_process avail deck f) = None ->
      is_Some (snd (powerpoint_process avail deck f) !! "error"))
  /\ (forall avail csv tsv xls f,
      fst (spreadsheet_process avail csv tsv xls f) = None ->
      is_Some (snd (spreadsheet_process avail csv tsv xls f) !! "error")).
Proof.
  repeat split.
  - intros read json f. unfold simple_process. error_key_present.
  - intros read imgs f. unfold markdown_process. error_key_present.
  - intros conv read title f. unfold pandoc_process. error_key_present.
  - intros extract imgs f. unfold pdf_process. error_key_present.
  - intros avail deck f. unfold powerpoint_process, process_powerpoint_file.
    error_key_present.
  - intros avail csv tsv xls f. unfold spreadsheet_process. error_key_present.
Qed.

End ProcessorProofs.

(* ------------------------------------------------------------------ *)
(** ** Image decisions *)
Section ImageProofs.
Import Image ToyPillow.

Example toy_small_removed :
  action (toy_process_image cfg_all [1; 10; 20]%Z (Some "x.png")) = Remove.
Proof. reflexivity. Qed.

Example toy_large_embedded :
  toy_process_image cfg_all [2; 500; 80]%Z (Some "x.jpg")
  = {| action := Embed; bytes := [100; 80]%Z; format := JPEG;
       data_uri := Some "data:image/jpeg;base64,QUJD" |}.
Proof. reflexivity. Qed.

Example toy_not_an_image :
  toy_process_image cfg_all [7; 7]%Z (Some "x.jpg") = initial_result [7; 7]%Z.
Proof. reflexivity. Qed.

Ltac run_monad :=
  repeat (simpl in *;
          match goal with
          | |- context [match ?x with _ => _ end] =>
              lazymatch x with
              | context [match _ with _ => _ end] => fail
              | _ => destruct x eqn:?
              end
          end).

Section Generic.
Variable img : Type.
Variable open_image : list Z -> outcome img.
Variables width height : img -> Z.
Variable is_rgb : img -> bool.
Variable convert_rgb : img -> outcome img.
Variable thumbnail : Z -> img -> outcome img.
Variable save : img -> image_format -> outcome (list Z).
Variable b64encode : list Z -> string.

Let run := run_process_image img open_image width height is_rgb convert_rgb thumbnail save b64encode.
Let decide_image := process_image img open_image width height is_rgb convert_rgb thumbnail save b64encode.

(** C5: [process_image] is total (every exception is caught and the dict
    reached so far is returned); when the bytes cannot be opened the
    decision is "save as-is, PNG" with the original bytes, and when any
    step raises the decision is still "save" with the original bytes. *)
Theorem process_image_save_as_is (cfg : image_config) (image_bytes : list Z)
    (filename_suggestion : option string) :
  (forall e, open_image image_bytes = Exc e ->
     decide_image cfg image_bytes filename_suggestion = initial_result image_bytes)
  /\ (forall e, fst (run cfg image_bytes filename_suggestion) = Exc e ->
     let r := decide_image cfg image_bytes filename_suggestion in
     action r = Save /\ bytes r = image_bytes /\ data_uri r = None).
Proof.
  subst run decide_image. unfold process_image, run_process_image.
  split.
  - intros e He. unfold process_body, prepare, bind, lift, log, modify, ret.
    simpl. rewrite He. reflexivity.
  - intros e. unfold process_body, prepare, to_save_mode, bind, lift, log, modify, ret.
    run_monad; intros; try discriminate; auto.
Qed.

(** C9: with "exclude decorative" on, an image that opens and whose
    width and height are both below the threshold is removed, whatever
    the resize and embed flags; no thumbnail, re-encoding or embedding
    check happens and the bytes are left as they were. *)
Theorem decorative_image_removed (cfg : image_config) (image_bytes : list Z)
    (filename_suggestion : option string) (i0 i : img) :
  exclude_decorative cfg = true ->
  open_image image_bytes = Ok i0 ->
  to_save_mode img is_rgb convert_rgb (save_format_of filename_suggestion) i0 = Ok i ->
  (0 <= width i)%Z ->
  (width i < decorative_threshold_px cfg)%Z ->
  (height i < decorative_threshold_px cfg)%Z ->
  let '(_, (r, trace)) := run cfg image_bytes filename_suggestion in
  action r = Remove /\ bytes r = image_bytes
  /\ (forall o, In o trace -> o = OpOpen \/ o = OpConvertRGB).
Proof.
  intros Hex Hopen Hconv Hw0 Hw Hh. subst run.
  unfold run_process_image, process_body, prepare, bind, lift, log, modify, ret.
  simpl. rewrite Hopen. simpl.
  destruct (needs_rgb img is_rgb _ i0); simpl; rewrite Hconv; simpl;
    rewrite Hex;
    (replace (0 <? decorative_threshold_px cfg)%Z with true by lia);
    (replace (width i <? decorative_threshold_px cfg)%Z with true by lia);
    (replace (height i <? decorative_threshold_px cfg)%Z with true by lia);
    simpl; (split; [done | split; [done|]]); intros o Ho; simpl in Ho; intuition congruence.
Qed.

End Generic.

Lemma process_image_save_as_is_witness :
  toy_open [7; 7]%Z = Exc "cannot identify image file"
  /\ toy_process_image cfg_all [7; 7]%Z (Some "x.jpg") = initial_result [7; 7]%Z.
Proof.
  split; [reflexivity|].
  apply (proj1 (process_image_save_as_is (Z * Z * bool) toy_open toy_width toy_height
                  toy_is_rgb toy_convert toy_thumbnail toy_save toy_b64
                  cfg_all [7; 7]%Z (Some "x.jpg")) "cannot identify image file").
  reflexivity.
Defined.

Lemma decorative_image_removed_witness :
  let '(_, (r, trace)) := toy_run cfg_all [2; 10; 20]%Z (Some "icon.jpg") in
  action r = Remove /\ bytes r = [2; 10; 20]%Z
  /\ (forall o, In o trace -> o = OpOpen \/ o = OpConvertRGB).
Proof.
  apply (decorative_image_removed (Z * Z * bool) toy_open toy_width toy_height
           toy_is_rgb toy_convert toy_thumbnail toy_save toy_b64
           cfg_all [2; 10; 20]%Z (Some "icon.jpg") (10%Z, 20%Z, false) (10%Z, 20%Z, true));
    vm_compute; first [reflexivity | discriminate].
Defined.

End ImageProofs.

(* ------------------------------------------------------------------ *)
(** ** Media references *)
Section LinkProofs.

Lemma list_ascii_of_string_app (s1 s2 : string) :
  list_ascii_of_string (s1 ++ s2) = app (list_ascii_of_string s1) (list_ascii_of_string s2).
Proof. induction s1 as [|a s1 IH]; simpl; [done|]. by rewrite IH. Qed.

Lemma in_firstn_in {A} (n : nat) (l : list A) (x : A) : In x (firstn n l) -> In x l.
Proof.
  revert l. induction n as [|n IH]; intros [|y l]; simpl; try tauto.
  intros [->|H]; [by left | right; auto].
Qed.

Lemma in_skipn_in {A} (n : nat) (l : list A) (x : A) : In x (skipn n l) -> In x l.
Proof.
  revert l. induction n as [|n IH]; intros [|y l]; simpl; try tauto.
  intros H. right. auto.
Qed.

(** Replacing only ever writes characters of the input or of [new]. *)
Lemma replace_fuel_chars (n : nat) (old new l : list ascii) (x : ascii) :
  In x (PyStr.replace_fuel n old new l) -> In x l \/ In x new.
Proof.
  revert l. induction n as [|n IH]; intros l; simpl; [tauto|].
  destruct l as [|c r]; [tauto|].
  destruct (PyStr.startswith old (c :: r)).
  - intros H. apply in_app_or in H as [H|H]; [tauto|].
    destruct (IH _ H) as [H'|H']; [left; eapply in_skipn_in; eauto | tauto].
  - intros [->|H]; [left; by left|]. destruct (IH _ H); [left; by right | tauto].
Qed.

(** Replacing a single character is a character-wise substitution. *)
Lemma replace_fuel_single (n : nat) (c : ascii) (new l : list ascii) :
  (length l <= n)%nat ->
  PyStr.replace_fuel n [c] new l
  = flat_map (fun x => if Ascii.eqb c x then new else [x]) l.
Proof.
  revert l. induction n as [|n IH]; intros [|x r] Hlen; simpl in *;
    [done | lia | done |].
  rewrite andb_true_r. destruct (Ascii.eqb c x).
  - simpl. f_equal. apply IH. lia.
  - f_equal. apply IH. lia.
Qed.

Lemma replace_single_no_char (c : ascii) (new s : string) :
  ~ In c (list_ascii_of_string s) -> PyStr.replace (String c "") new s = s.
Proof.
  intros Hc. unfold PyStr.replace. simpl.
  rewrite replace_fuel_single by lia.
  rewrite <- (string_of_list_ascii_of_string s) at 2. f_equal.
  induction (list_ascii_of_string s) as [|x r IH]; simpl; [done|].
  destruct (Ascii.eqb_spec c x) as [->|Hne].
  - exfalso. apply Hc. by left.
  - simpl. f_equal. apply IH. intros H. apply Hc. by right.
Qed.

Lemma replace_single_removes (c d : ascii) (s : string) :
  c <> d -> ~ In c (list_ascii_of_string (PyStr.replace (String c "") (String d "") s)).
Proof.
  intros Hcd. unfold PyStr.replace. simpl.
  rewrite list_ascii_of_string_of_list_ascii, replace_fuel_single by lia.
  induction (list_ascii_of_string s) as [|x r IH]; simpl; [tauto|].
  destruct (Ascii.eqb_spec c x) as [->|Hne]; simpl.
  - intros [H|H]; [congruence | auto].
  - intros [H|H]; [congruence | auto].
Qed.

Lemma replace_chars (old new s : string) (x : ascii) :
  In x (list_ascii_of_string (PyStr.replace old new s)) ->
  In x (list_ascii_of_string s) \/ In x (list_ascii_of_string new).
Proof.
  unfold PyStr.replace. rewrite list_ascii_of_string_of_list_ascii.
  apply replace_fuel_chars.
Qed.

Lemma splitext_fst_chars (p : string) (x : ascii) :
  In x (list_ascii_of_string (fst (Path.splitext p))) -> In x (list_ascii_of_string p).
Proof.
  unfold Path.splitext.
  destruct (Path.rfind "." _); simpl; [|auto].
  destruct (_ && _); simpl; [|auto].
  rewrite list_ascii_of_string_of_list_ascii. apply in_firstn_in.
Qed.

(** A non-empty extension means the name has a character other than ".". *)
Lemma splitext_snd_nonempty (p : string) :
  snd (Path.splitext p) <> "" ->
  exists x, In x (list_ascii_of_string p) /\ x <> "."%char.
Proof.
  unfold Path.splitext.
  destruct (Path.rfind "." _); simpl; [|congruence].
  destruct (_ <=? _)%nat; simpl; [|congruence].
  destruct (existsb _ _) eqn:E; simpl; [|congruence]. intros _.
  apply existsb_exists in E as [x [Hin Hx]].
  exists x. split.
  - eapply in_skipn_in, in_firstn_in; eauto.
  - intros ->. discriminate.
Qed.

Lemma join_media_flat (n : string) :
  ~ In "/"%char (list_ascii_of_string n) ->
  ~ In "\"%char (list_ascii_of_string n) ->
  PyStr.replace "\" "/" (PyStr.join "media" n) = "media/" ++ n.
Proof.
  intros Hs Hb. unfold PyStr.join.
  replace (PyStr.startswith ["/"%char] (list_ascii_of_string n)) with false.
  2:{ destruct (list_ascii_of_string n) as [|a r]; cbn [PyStr.startswith]; [done|].
      destruct (Ascii.eqb_spec "/" a) as [<-|]; [exfalso; apply Hs; by left | by rewrite andb_false_l]. }
  apply replace_single_no_char. rewrite !list_ascii_of_string_app. simpl.
  intros H. repeat (destruct H as [H|H]; [discriminate|]). auto.
Qed.

End LinkProofs.

Section MediaReferenceProofs.
Import Image.

Lemma string_length_app (s1 s2 : string) :
  String.length (s1 ++ s2) = (String.length s1 + String.length s2)%nat.
Proof. induction s1 as [|a s1 IH]; simpl; [done|]. by rewrite IH. Qed.

Lemma long_name_not_dots (n : string) :
  (3 <= String.length n)%nat -> n <> "" /\ n <> "." /\ n <> "..".
Proof. intros H. repeat split; intros ->; simpl in H; lia. Qed.

Lemma not_only_dots (n : string) (x : ascii) :
  In x (list_ascii_of_string n) -> x <> "."%char -> n <> "" /\ n <> "." /\ n <> "..".
Proof.
  intros Hin Hx. repeat split; intros ->; simpl in Hin; intuition congruence.
Qed.

Lemma no_char_app (c : ascii) (s1 s2 : string) :
  ~ In c (list_ascii_of_string s1) -> ~ In c (list_ascii_of_string s2) ->
  ~ In c (list_ascii_of_string (s1 ++ s2)).
Proof. rewrite list_ascii_of_string_app. intros H1 H2 H. apply in_app_or in H. tauto. Qed.

(** A character that neither [s] nor [new] contains is not in [s.replace(old, new)]. *)
Lemma replace_keeps_out (c : ascii) (old new s : string) :
  ~ In c (list_ascii_of_string s) -> ~ In c (list_ascii_of_string new) ->
  ~ In c (list_ascii_of_string (PyStr.replace old new s)).
Proof. intros H1 H2 H. apply replace_chars in H. tauto. Qed.

Section Generic.
Variable img : Type.
Variable open_image : list Z -> outcome img.
Variables width height : img -> Z.
Variable is_rgb : img -> bool.
Variable convert_rgb : img -> outcome img.
Variable thumbnail : Z -> img -> outcome img.
Variable save : img -> image_format -> outcome (list Z).
Variable b64encode : list Z -> string.

Lemma pdf_relink_flat (cfg : image_config) (img_bytes : list Z) (suggested_name : string) :
  ~ In "/"%char (list_ascii_of_string suggested_name) ->
  ~ In "\"%char (list_ascii_of_string suggested_name) ->
  match pdf_image_decision img open_image width height is_rgb convert_rgb thumbnail save
          b64encode cfg img_bytes suggested_name with
  | PdfRelink new_path final_name _ => new_path = "media/" ++ final_name /\ flat_name final_name
  | _ => True
  end.
Proof.
  intros Hs Hb. unfold pdf_image_decision.
  destruct (Path.splitext suggested_name) as [base ext0] eqn:Es.
  destruct (action _); [|done|done].
  set (fmt := format_lower _).
  assert (Hfmt : String.length ("." ++ fmt) = 4%nat \/ String.length ("." ++ fmt) = 5%nat)
    by (subst fmt; destruct (format _); simpl; auto).
  assert (Hbase : forall c, ~ In c (list_ascii_of_string suggested_name) ->
                  ~ In c (list_ascii_of_string base)).
  { intros c Hc H. apply Hc. apply (splitext_fst_chars suggested_name). by rewrite Es. }
  assert (Hsuf : forall c, c = "/"%char \/ c = "\"%char ->
                 ~ In c (list_ascii_of_string ("." ++ fmt))).
  { intros c Hc. subst fmt. destruct (format _); simpl;
      destruct Hc as [-> | ->]; intuition discriminate. }
  split.
  - apply join_media_flat; apply no_char_app; auto.
  - split; [apply no_char_app; auto|].
    apply long_name_not_dots. rewrite string_length_app. lia.
Qed.

End Generic.

Lemma markdown_link_flat (image_file_exists : string -> bool)
    (copy_ok : string -> string -> bool) (img_path link : string) :
  ~ In "\"%char (list_ascii_of_string img_path) ->
  LocalImages.new_link image_file_exists copy_ok img_path = Some link ->
  exists n, link = "media/" ++ n /\ flat_name n.
Proof.
  intros Hb. unfold LocalImages.new_link.
  destruct (LocalImages.skipped _); [discriminate|].
  destruct (image_file_exists _); [|discriminate]. simpl.
  destruct (copy_ok _ _); [|discriminate]. intros [= <-].
  set (flat := PyStr.replace "/" "_" (PyStr.replace "./" "" (PyStr.replace "../" "" img_path))).
  assert (Hfs : ~ In "/"%char (list_ascii_of_string flat)).
  { apply replace_single_removes. discriminate. }
  assert (Hfb : ~ In "\"%char (list_ascii_of_string flat)).
  { repeat apply replace_keeps_out; auto; simpl; intuition discriminate. }
  unfold LocalImages.flat_img_name. fold flat.
  destruct (String.eqb_spec (snd (Path.splitext flat)) "") as [E|E].
  - exists (flat ++ ".png"). split.
    + apply join_media_flat; apply no_char_app; auto; simpl; intuition discriminate.
    + split; [apply no_char_app; auto; simpl; intuition discriminate|].
      apply long_name_not_dots. rewrite string_length_app. simpl. lia.
  - exists flat. split; [by apply join_media_flat|].
    split; [done|].
    destruct (splitext_snd_nonempty flat E) as [x [Hin Hx]].
    eapply not_only_dots; eauto.
Qed.

(** C7 (amended): for every image file name without a backslash, the
    relink reference is exactly "media/<name>" where <name> has no "/"
    and is not "", "." or "..", so it names an entry directly inside the
    media folder: for the PDF images (a directory entry, hence without
    "/") and for the local images of a Markdown file (any relative path).
    The name may still contain ".." inside it. *)
Theorem relink_reference_in_media :
  (forall img open_image width height is_rgb convert_rgb thumbnail save b64encode
          cfg img_bytes suggested_name,
      ~ In "/"%char (list_ascii_of_string suggested_name) ->
      ~ In "\"%char (list_ascii_of_string suggested_name) ->
      match pdf_image_decision img open_image width height is_rgb convert_rgb thumbnail
              save b64encode cfg img_bytes suggested_name with
      | PdfRelink new_path final_name _ =>
          new_path = "media/" ++ final_name /\ flat_name final_name
      | _ => True
      end)
  /\ (forall image_file_exists copy_ok img_path link,
      ~ In "\"%char (list_ascii_of_string img_path) ->
      LocalImages.new_link image_file_exists copy_ok img_path = Some link ->
      exists n, link = "media/" ++ n /\ flat_name n).
Proof.
  split.
  - intros. by apply pdf_relink_flat.
  - apply markdown_link_flat.
Qed.

End MediaReferenceProofs.

Section MediaReferenceExamples.
Import Image ToyPillow.

(** C7 (counterexample): a PDF image written as "a..b.png" is relinked to
    "media/a..b.png", whose name contains "..". A Markdown reference to a
    local file named "..\x.png" becomes "media/../x.png". *)
Lemma relink_name_with_dots :
  toy_pdf_image_decision cfg_none [1; 10; 20]%Z "a..b.png"
  = PdfRelink "media/a..b.png" "a..b.png" [10; 20]%Z
  /\ (exists pre post, "media/a..b.png" = pre ++ ".." ++ post)
  /\ LocalImages.new_link (fun _ => true) (fun _ _ => true) "..\x.png"
     = Some "media/../x.png".
Proof.
  split; [vm_compute; reflexivity|]. split.
  - exists "media/a", "b.png". reflexivity.
  - vm_compute. reflexivity.
Qed.

Lemma relink_reference_in_media_witness :
  LocalImages.new_link (fun _ => true) (fun _ _ => true) "../assets/logo.png"
  = Some "media/assets_logo.png"
  /\ exists n, "media/assets_logo.png" = "media/" ++ n /\ flat_name n.
Proof.
  assert (H : LocalImages.new_link (fun _ => true) (fun _ _ => true) "../assets/logo.png"
              = Some "media/assets_logo.png") by (vm_compute; reflexivity).
  split; [exact H|].
  apply (proj2 relink_reference_in_media (fun _ => true) (fun _ _ => true)
           "../assets/logo.png" "media/assets_logo.png"); [|exact H].
  simpl. intuition discriminate.
Defined.

End MediaReferenceExamples.

(* ------------------------------------------------------------------ *)
(** ** CSV delimiter scores *)
Section CsvScoreProofs.
Import CsvScore.

(** End-to-end scenario 1, "a;b\n1;2\n": the frames pandas samples with
    ";" and with ",", and their scores. *)
Example scenario1_scores :
  score_csv_parsing {| columns := ["a"; "b"]; rows := [["1"; "2"]];
                       dtypes := ["object"; "object"] |} ";" (Some ["a;b"; "1;2"]) = 59%Z
  /\ score_csv_parsing {| columns := ["a;b"]; rows := [["1;2"]]; dtypes := ["object"] |}
       "," (Some ["a;b"; "1;2"]) = 0%Z.
Proof. split; reflexivity. Qed.

(** C6 (counterexample): the file "a;b\n" has only a header row, which
    contains ";" and no ",". Sampled with ";" pandas returns the columns
    [a, b] and no rows; with "," it returns the single column "a;b" and no
    rows. Both frames are empty, so both scores are 0 and the ";" score
    does not exceed the "," score. *)
Lemma header_only_csv_scores_tie :
  let file := Some ["a;b"] in
  let df_semicolon := {| columns := ["a"; "b"]; rows := []; dtypes := ["object"; "object"] |} in
  let df_comma := {| columns := ["a;b"]; rows := []; dtypes := ["object"] |} in
  score_csv_parsing df_semicolon ";" file = 0%Z
  /\ score_csv_parsing df_comma "," file = 0%Z
  /\ ~ (score_csv_parsing df_comma "," file < score_csv_parsing df_semicolon ";" file)%Z.
Proof. vm_compute. split; [done|]. split; [done|]. discriminate. Qed.

Lemma score_nonneg (df : data_frame) (separator : ascii) (f : option (list string)) :
  (0 <= score_csv_parsing df separator f)%Z.
Proof. unfold score_csv_parsing. destruct (df_empty df); lia. Qed.

Lemma consistency_bonus_ge (separator : ascii) (f : option (list string)) (n : nat) :
  (-10 <= consistency_bonus separator f n)%Z.
Proof.
  unfold consistency_bonus. destruct f as [ls|]; [|lia].
  destruct (map _ _) as [|c cs]; [lia|].
  destruct (forallb _ _); [lia|]. destruct (_ <=? _)%nat; lia.
Qed.

Lemma header_points_nonneg (separator : ascii) (cols : list string) :
  (0 <= fold_right Z.add 0 (map (header_point separator) cols))%Z.
Proof.
  induction cols as [|c cols IH]; simpl; [lia|].
  unfold header_point at 1.
  destruct (_ && _); [lia|]. destruct (_ && _); [lia|]. destruct (_ && _); lia.
Qed.

(** A single-column sample scores 0 whatever the separator. *)
Lemma single_column_scores_zero (df : data_frame) (separator : ascii)
    (f : option (list string)) :
  length (columns df) = 1%nat -> score_csv_parsing df separator f = 0%Z.
Proof.
  intros H1. unfold score_csv_parsing. destruct (df_empty df); [done|].
  rewrite H1. simpl.
  destruct (Ascii.eqb separator ";"); simpl;
    repeat match goal with |- context [if ?b then _ else _] => destruct b end; lia.
Qed.

(** A sample split by ";" into at least two columns, with a data row,
    scores strictly above 0. *)
Lemma semicolon_columns_score_positive (df : data_frame) (f : option (list string)) :
  (2 <= length (columns df))%nat -> rows df <> [] ->
  (0 < score_csv_parsing df ";" f)%Z.
Proof.
  intros Hc Hr. unfold score_csv_parsing.
  replace (df_empty df) with false.
  2:{ unfold df_empty. destruct (columns df) as [|c cs]; [simpl in Hc; lia|].
      destruct (rows df); congruence. }
  cbv zeta. rewrite (proj2 (Nat.eqb_neq (length (columns df)) 1) ltac:(lia)).
  replace (1 <? length (columns df))%nat with true by (symmetry; apply Nat.ltb_lt; lia).
  pose proof (consistency_bonus_ge ";" f (length (rows df))).
  pose proof (header_points_nonneg ";" (columns df)).
  simpl Ascii.eqb. cbv iota.
  destruct (_ && _); destruct (Nat.ltb_spec 100 (length (columns df))); lia.
Qed.

(** C6 (amended): when the header row has no "," the comma sample has a
    single column and scores 0, so the ";" score is never below the ","
    score; it is strictly above it whenever the ";" sample has at least two
    columns and at least one data row. *)
Theorem semicolon_score_beats_comma (df_semicolon df_comma : data_frame)
    (f_semicolon f_comma : option (list string)) :
  length (columns df_comma) = 1%nat ->
  score_csv_parsing df_comma "," f_comma = 0%Z
  /\ (score_csv_parsing df_comma "," f_comma <= score_csv_parsing df_semicolon ";" f_semicolon)%Z
  /\ ((2 <= length (columns df_semicolon))%nat -> rows df_semicolon <> [] ->
      (score_csv_parsing df_comma "," f_comma < score_csv_parsing df_semicolon ";" f_semicolon)%Z).
Proof.
  intros H1. rewrite (single_column_scores_zero df_comma "," f_comma H1).
  split; [done|]. split; [apply score_nonneg|].
  apply semicolon_columns_score_positive.
Qed.

Lemma semicolon_score_beats_comma_witness :
  let df_semicolon := {| columns := ["a"; "b"]; rows := [["1"; "2"]];
                         dtypes := ["object"; "object"] |} in
  let df_comma := {| columns := ["a;b"]; rows := [["1;2"]]; dtypes := ["object"] |} in
  let file := Some ["a;b"; "1;2"] in
  (score_csv_parsing df_comma "," file < score_csv_parsing df_semicolon ";" file)%Z.
Proof.
  simpl.
  apply (semicolon_score_beats_comma
           {| columns := ["a"; "b"]; rows := [["1"; "2"]]; dtypes := ["object"; "object"] |}
           {| columns := ["a;b"]; rows := [["1;2"]]; dtypes := ["object"] |}
           (Some ["a;b"; "1;2"]) (Some ["a;b"; "1;2"]));
    simpl; [reflexivity | lia | discriminate].
Defined.

End CsvScoreProofs.

(* ------------------------------------------------------------------ *)
(** ** The batch loop *)
Section BatchProofs.
Import Batch.

Section Generic.
Variable process : string -> outcome (option string).
Variable write_md_ok : string -> bool.
Variable cleanup_media : string -> outcome unit.
Variable create_zip_package : string -> outcome bool.
Variable make_temp_dirs : string -> outcome unit.
Variable make_output_dir : outcome unit.

Local Abbreviation run := (Batch.run_file process write_md_ok cleanup_media create_zip_package make_temp_dirs).
Local Abbreviation files_loop := (Batch.process_files process write_md_ok cleanup_media create_zip_package make_temp_dirs).
Local Abbreviation folder := (Batch.process_folder process write_md_ok cleanup_media create_zip_package make_temp_dirs make_output_dir).

Lemma run_file_no_complete (f : string) : ~ In StComplete (snd (run f)).
Proof.
  unfold run_file, process_file_and_package.
  destruct (make_temp_dirs f); [|simpl; tauto].
  destruct (process f) as [[md|]|e];
    [destruct (write_md_ok f); [destruct (cleanup_media f)|] | |]; simpl; intuition discriminate.
Qed.

Lemma run_file_ok (f : string) :
  (forall e, make_temp_dirs f <> Exc e /\ process f <> Exc e
             /\ cleanup_media f <> Exc e /\ create_zip_package f <> Exc e) ->
  exists b st, run f = (Ok b, st)
  /\ ((process f = Ok None
       \/ (exists md, process f = Ok (Some md) /\ write_md_ok f = false)
       \/ (exists md, process f = Ok (Some md) /\ write_md_ok f = true
                      /\ create_zip_package f = Ok false)) -> b = false)
  /\ ((exists md, process f = Ok (Some md) /\ write_md_ok f = true
                  /\ create_zip_package f = Ok true) -> b = true).
Proof.
  intros H. unfold run_file, process_file_and_package.
  destruct (make_temp_dirs f) as [u|e] eqn:Et; [|by destruct (H e) as [? _]].
  destruct (process f) as [[md|]|e] eqn:Ep; [| |by destruct (H e) as (_ & ? & _)].
  - destruct (write_md_ok f) eqn:Ew.
    + destruct (cleanup_media f) as [v|e] eqn:Ec; [|by destruct (H e) as (_ & _ & ? & _)].
      destruct (create_zip_package f) as [b|e] eqn:Ez; [|by destruct (H e) as (_ & _ & _ & ?)].
      exists b, []. split; [done|]. split.
      * intros [Hx|[(md' & Hx & Hw)|(md' & Hx & Hw & Hz)]]; congruence.
      * intros (md' & Hx & Hw & Hz). congruence.
    + exists false, []. split; [done|]. split; [done|].
      intros (md' & Hx & Hw & Hz). congruence.
  - exists false, [StProcessFailed (basename f)]. split; [done|]. split; [done|].
    intros (md' & Hx & _). congruence.
Qed.

Lemma run_file_exc (f : string) :
  ((exists e, make_temp_dirs f = Exc e)
   \/ (exists u e, make_temp_dirs f = Ok u /\ process f = Exc e)
   \/ (exists u md e, make_temp_dirs f = Ok u /\ process f = Ok (Some md)
                      /\ write_md_ok f = true /\ cleanup_media f = Exc e)
   \/ (exists u md v e, make_temp_dirs f = Ok u /\ process f = Ok (Some md)
                        /\ write_md_ok f = true /\ cleanup_media f = Ok v
                        /\ create_zip_package f = Exc e)) ->
  exists e, run f = (Exc e, []).
Proof.
  unfold run_file, process_file_and_package.
  intros [(e & Ht)|[(u & e & Ht & Hp)|[(u & md & e & Ht & Hp & Hw & Hc)|(u & md & v & e & Ht & Hp & Hw & Hc & Hz)]]];
    rewrite Ht; eauto.
  - rewrite Hp. eauto.
  - rewrite Hp, Hw, Hc. eauto.
  - rewrite Hp, Hw, Hc, Hz. eauto.
Qed.

Lemma files_loop_no_complete (total i : nat) (files : list string) :
  ~ In StComplete (snd (files_loop total i files)).
Proof.
  revert i. induction files as [|f fs IH]; intros i; simpl; [tauto|].
  pose proof (run_file_no_complete f) as Hf.
  destruct (run f) as [[b|e] st]; simpl in Hf.
  - specialize (IH (S i)). destruct (files_loop total (S i) fs) as [r' st'].
    simpl in *. intros [H|H]; [discriminate|].
    apply in_app_or in H as [H|[H|H]]; [tauto| |tauto].
    destruct b; discriminate.
  - intros [H|H]; [discriminate|tauto].
Qed.

Lemma files_loop_ok (total i : nat) (files : list string) :
  (forall f e, In f files ->
     make_temp_dirs f <> Exc e /\ process f <> Exc e
     /\ cleanup_media f <> Exc e /\ create_zip_package f <> Exc e) ->
  fst (files_loop total i files) = Ok tt
  /\ forall f, In f files ->
       exists b, fst (run f) = Ok b
       /\ In ((if b then StSuccess else StFailed) (basename f)) (snd (files_loop total i files)).
Proof.
  revert i. induction files as [|g gs IH]; intros i H; simpl; [done|].
  destruct (run_file_ok g) as (b & st & Hg & _ & _).
  { intros e. apply H. by left. }
  rewrite Hg.
  destruct (IH (S i)) as [IH1 IH2].
  { intros f e Hf. apply H. by right. }
  destruct (files_loop total (S i) gs) as [r' st'] eqn:E. simpl in IH1, IH2 |- *.
  split; [done|]. intros f [<-|Hf].
  - exists b. rewrite Hg. split; [done|]. right. apply in_or_app. right. left. by destruct b.
  - destruct (IH2 f Hf) as (b' & Hb' & Hin). exists b'. split; [done|].
    right. apply in_or_app. right. by right.
Qed.

Lemma files_loop_prefix (total i : nat) (pre : list string) (f : string) (post : list string) (e : string) :
  (forall g e', In g pre ->
     make_temp_dirs g <> Exc e' /\ process g <> Exc e'
     /\ cleanup_media g <> Exc e' /\ create_zip_package g <> Exc e') ->
  run f = (Exc e, []) ->
  files_loop total i (pre ++ f :: post)
  = (Exc e, app (snd (files_loop total i pre)) [StStarting (basename f) (S (i + length pre)) total]).
Proof.
  revert i. induction pre as [|g gs IH]; intros i H Hf; simpl.
  - rewrite Hf. simpl. do 4 f_equal. lia.
  - destruct (run_file_ok g) as (b & st & Hg & _ & _).
    { intros e'. apply H. by left. }
    rewrite Hg. rewrite IH.
    + destruct (files_loop total (S i) gs) as [r' st']. simpl.
      rewrite <- app_assoc. simpl. do 7 f_equal. lia.
    + intros g' e' Hg'. apply H. by right.
    + exact Hf.
Qed.

Lemma folder_unfold (files : list string) :
  files <> [] ->
  folder files =
    match make_output_dir with
    | Exc e => (Exc e, [StFound (length files)])
    | Ok _ =>
        let '(r, st) := files_loop (length files) 0 files in
        match r with
        | Exc e => (Exc e, StFound (length files) :: st)
        | Ok _ => (Ok tt, StFound (length files) :: app st [StComplete])
        end
    end.
Proof. destruct files; [done|reflexivity]. Qed.


End Generic.



End BatchProofs.

(* ------------------------------------------------------------------ *)
(** ** Archive creation *)
Section ZipProofs.
Import Zip.

Section Generic.
Variable write_fails : nat -> bool.
Variable serialize : list (string * list Z) -> list Z.
Variable media_entries : list (string * string).
Variable zip_is_dir : bool.
Variable remove_fails : bool.

Lemma zip_body_ok_present (zip md arc : string) (meta : option string) (fs fs' : fsys) (u : unit) :
  zip_body write_fails serialize media_entries zip_is_dir zip md arc meta fs = (Ok u, fs') ->
  is_Some (fs' !! zip).
Proof.
  unfold zip_body. destruct zip_is_dir; [discriminate|].
  destruct (write_fails 0); [discriminate|].
  destruct (write_entries _ _ _ _ _ _ _) as [[w|e] fs2]; [|discriminate].
  destruct (write_fails _); [discriminate|].
  intros [= _ <-]. by simplify_map_eq.
Qed.


End Generic.

(** The third write (the first media file) fails after the archive has
    been created with its Markdown entry; it is removed. *)
Example zip_partial_then_removed :
  let write_fails := fun k => Nat.eqb k 2 in
  let serialize := fun w : list (string * list Z) => flat_map snd w in
  let fs : fsys := <["media/a.png" := [7%Z]]> {[ "doc.md" := [35%Z] ]} in
  zip_body write_fails serialize [("media/a.png", "media/a.png")] false
    "doc.zip" "doc.md" "doc.md" None fs
    = (Exc "OSError", <["doc.zip" := [35%Z]]> fs)
  /\ create_zip_package write_fails serialize [("media/a.png", "media/a.png")] false false
       "doc.zip" "doc.md" "doc.md" None fs = (Ok false, fs).
Proof.
  split; vm_compute; reflexivity.
Qed.



End ZipProofs.

(* ------------------------------------------------------------------ *)
(** ** The nested media normalizer *)
Section MediaTreeProofs.
Import MediaTree.

Lemma update_same (n : string) (x : node) (d : dir) :
  lookup n d = Some x -> update n x d = d.
Proof.
  induction d as [|[m y] d IH]; simpl; [discriminate|].
  destruct (String.eqb_spec m n) as [->|]; [congruence|].
  intros H. by rewrite IH.
Qed.

Lemma lookup_update_hit (n : string) (x y : node) (d : dir) :
  lookup n d = Some y -> lookup n (update n x d) = Some x.
Proof.
  induction d as [|[m z] d IH]; simpl; [discriminate|].
  destruct (String.eqb_spec m n) as [->|]; simpl.
  - by rewrite String.eqb_refl.
  - apply String.eqb_neq in n0. rewrite n0. exact IH.
Qed.

Lemma names_update (n : string) (x : node) (d : dir) :
  map fst (update n x d) = map fst d.
Proof.
  induction d as [|[m y] d IH]; simpl; [done|].
  destruct (String.eqb m n); simpl; by rewrite ?IH.
Qed.

Lemma lookup_app_l (n : string) (x : node) (d e : dir) :
  lookup n d = Some x -> lookup n (app d e) = Some x.
Proof.
  induction d as [|[m y] d IH]; simpl; [discriminate|].
  destruct (String.eqb m n); auto.
Qed.

Lemma lookup_not_in (n : string) (d : dir) :
  ~ In n (map fst d) -> lookup n d = None.
Proof.
  induction d as [|[m y] d IH]; simpl; [done|].
  intros H. destruct (String.eqb_spec m n); [tauto|]. apply IH. tauto.
Qed.

Lemma lookup_in (n : string) (x : node) (d : dir) :
  lookup n d = Some x -> In n (map fst d).
Proof.
  induction d as [|[m y] d IH]; simpl; [discriminate|].
  destruct (String.eqb_spec m n); auto.
Qed.

Lemma remove_entry_app (n : string) (d e : dir) :
  In n (map fst d) -> remove_entry n (app d e) = app (remove_entry n d) e.
Proof.
  induction d as [|[m y] d IH]; simpl; [done|].
  destruct (String.eqb_spec m n); [done|]. intros [H|H]; [congruence|]. by rewrite IH.
Qed.

Lemma remove_entry_gone (n : string) (d : dir) :
  NoDup (map fst d) -> ~ In n (map fst (remove_entry n d)).
Proof.
  induction d as [|[m y] d IH]; simpl; [tauto|].
  intros Hnd. inversion Hnd as [|? ? Hm Hnd']; subst.
  destruct (String.eqb_spec m n) as [->|Hne]; [intros H; apply Hm; by apply list_elem_of_In|].
  simpl. intros [H|H]; [congruence|]. by apply (IH Hnd').
Qed.

(** What one run of the loop leaves: moved names were not in the
    parent's listing, and every entry left behind is a directory whose
    name the parent now holds. *)
Lemma move_loop_spec (todo : dir) (ex : list string) (moved kept : dir) :
  let '(moved', kept') := move_loop todo ex moved kept in
  (forall n, In n (map fst moved) -> In n (map fst moved'))
  /\ (forall n, In n (map fst moved') -> In n (map fst moved) \/ ~ In n ex)
  /\ (forall n x, In (n, x) kept' ->
        In (n, x) kept \/ ((exists es, x = Dir es) /\ (In n ex \/ In n (map fst moved')))).
Proof.
  revert ex moved kept.
  induction todo as [|[filename x] rest IH]; intros ex moved kept; simpl.
  { split; [done|]. split; [auto|]. auto. }
  destruct (existsb (String.eqb filename) ex) eqn:Hex.
  - apply existsb_exists in Hex as (f' & Hf' & Heq). apply String.eqb_eq in Heq. subst f'.
    destruct (os_remove_ok x) eqn:Hx.
    + apply IH.
    + specialize (IH ex moved (app kept [(filename, x)])).
      destruct (move_loop rest ex moved (app kept [(filename, x)])) as [moved' kept'].
      destruct IH as (IH1 & IH2 & IH3). split; [done|]. split; [done|].
      intros n y Hy. destruct (IH3 n y Hy) as [H|H]; [|by right].
      apply in_app_or in H as [H|[H|H]]; [by left| |done].
      injection H as <- <-. right. split; [destruct x; [discriminate|eauto]|by left].
  - specialize (IH (filename :: ex) (app moved [(filename, x)]) kept).
    destruct (move_loop rest (filename :: ex) (app moved [(filename, x)]) kept) as [moved' kept'].
    destruct IH as (IH1 & IH2 & IH3). rewrite map_app in IH1, IH2. simpl in IH1, IH2.
    split; [|split].
    + intros n Hn. apply IH1, in_or_app. by left.
    + intros n Hn. destruct (IH2 n Hn) as [H|H].
      * apply in_app_or in H as [H|[<-|[]]]; [by left|right].
        intros Hin. assert (existsb (String.eqb filename) ex = true) as Hb.
        { apply existsb_exists. exists filename. by rewrite String.eqb_refl. }
        congruence.
      * right. intros Hin. apply H. by right.
    + intros n y Hy. destruct (IH3 n y Hy) as [H|[Hd [[<-|Hn]|Hn]]]; [by left|..];
        right; split; auto.
      right. apply IH1, in_or_app. right. by left.
Qed.

(** A second run over entries that are all directories already named in
    the parent removes and moves nothing. *)
Lemma move_loop_all_kept (todo : dir) (ex : list string) (moved kept : dir) :
  (forall n x, In (n, x) todo -> (exists es, x = Dir es) /\ In n ex) ->
  move_loop todo ex moved kept = (moved, app kept todo).
Proof.
  revert kept. induction todo as [|[filename x] rest IH]; intros kept H; simpl.
  { by rewrite app_nil_r. }
  destruct (H filename x (or_introl eq_refl)) as [[es ->] Hin].
  replace (existsb (String.eqb filename) ex) with true.
  2:{ symmetry. apply existsb_exists. exists filename. by rewrite String.eqb_refl. }
  simpl. rewrite IH; [by rewrite <- app_assoc|].
  intros n y Hy. apply H. by right.
Qed.

(** C8: on a scratch directory whose media folder has no two entries of the
    same name, running the normalizer a second time changes nothing: the
    whole scratch directory, and so its media folder, is the same after two
    runs as after one. *)
Theorem cleanup_nested_media_idempotent (output_dir : dir) :
  (forall media, lookup "media" output_dir = Some (Dir media) -> NoDup (map fst media)) ->
  cleanup_nested_media_folders (cleanup_nested_media_folders output_dir)
  = cleanup_nested_media_folders output_dir.
Proof.
  intros Hnd.
  remember (cleanup_nested_media_folders output_dir) as r1 eqn:E.
  unfold cleanup_nested_media_folders in E.
  destruct (lookup "media" output_dir) as [[data|media]|] eqn:Hm;
    try (subst r1; unfold cleanup_nested_media_folders; by rewrite Hm).
  destruct (lookup "media" media) as [[data|nested]|] eqn:Hn;
    try (subst r1; unfold cleanup_nested_media_folders; by rewrite Hm, Hn).
  pose proof (move_loop_spec nested (map fst media) [] []) as Hspec.
  destruct (move_loop nested (map fst media) [] []) as [moved kept] eqn:Hl.
  destruct Hspec as (_ & Hmv & Hkp). simpl in Hmv, Hkp.
  assert (Hmedia : ~ In "media" (map fst moved)).
  { intros H. destruct (Hmv _ H) as [[]|H']. apply H'. by eapply lookup_in. }
  set (media2 := match kept with
                 | [] => remove_entry "media" (app (update "media" (Dir kept) media) moved)
                 | _ :: _ => app (update "media" (Dir kept) media) moved
                 end) in E.
  assert (Hr1 : lookup "media" r1 = Some (Dir media2)).
  { subst r1. by eapply lookup_update_hit. }
  unfold cleanup_nested_media_folders. rewrite Hr1.
  destruct kept as [|k ks] eqn:Hk.
  - (* the nested folder was emptied and removed *)
    replace (lookup "media" media2) with (@None node); [done|].
    symmetry. apply lookup_not_in. subst media2.
    rewrite remove_entry_app.
    2:{ rewrite names_update. by eapply lookup_in. }
    rewrite map_app. intros H. apply in_app_or in H as [H|H]; [|done].
    revert H. apply remove_entry_gone. rewrite names_update. by apply Hnd.
  - (* the nested folder keeps directories that could not be removed *)
    assert (Hlk : lookup "media" media2 = Some (Dir (k :: ks))).
    { subst media2. apply lookup_app_l. by eapply lookup_update_hit. }
    rewrite Hlk.
    rewrite (move_loop_all_kept (k :: ks) (map fst media2) [] []).
    2:{ intros n x Hx. destruct (Hkp n x Hx) as [[]|[Hd Hin]]. split; [done|].
        subst media2. rewrite map_app, names_update. apply in_or_app. tauto. }
    simpl app. rewrite app_nil_r. rewrite (update_same _ _ _ Hlk).
    by apply update_same.
Qed.

(** A scratch folder whose media folder holds "a.png" and a nested media
    folder with a duplicate file "a.png", a new file "b.png" and a
    directory "media": the duplicate file is deleted, "b.png" moves up,
    and the directory, which [os.remove] cannot delete, stays behind, so
    the nested folder is kept. *)
Example cleanup_nested_example :
  let nested := Dir [("a.png", File [2%Z]); ("b.png", File [3%Z]); ("media", Dir [])] in
  let root := [("doc.md", File [1%Z]); ("media", Dir [("a.png", File [1%Z]); ("media", nested)])] in
  cleanup_nested_media_folders root
  = [("doc.md", File [1%Z]);
     ("media", Dir [("a.png", File [1%Z]); ("media", Dir [("media", Dir [])]);
                    ("b.png", File [3%Z])])].
Proof. reflexivity. Qed.

Lemma cleanup_nested_media_idempotent_witness :
  let nested := Dir [("a.png", File [2%Z]); ("b.png", File [3%Z]); ("media", Dir [])] in
  let root := [("doc.md", File [1%Z]); ("media", Dir [("a.png", File [1%Z]); ("media", nested)])] in
  cleanup_nested_media_folders (cleanup_nested_media_folders root)
  = cleanup_nested_media_folders root.
Proof.
  intros nested root.
  apply cleanup_nested_media_idempotent.
  intros media Hm. vm_compute in Hm. injection Hm as <-.
  apply (bool_decide_unpack _). vm_compute. reflexivity.
Defined.

End MediaTreeProofs.

(* ------------------------------------------------------------------ *)
(** ** Image download timeout *)
Section DownloadOptionsProofs.
Import DownloadOptions.

(** [ConverterConfig] keeps neither download option, so
    [PandocProcessor] reads [limit_image_download] as its default [False],
    and [_predownload_external_images] then passes [timeout=None]. *)
Lemma config_drops_download_options (config_dict : py_dict) :
  config_get (ConverterConfig config_dict) "limit_image_download" (VBool false) = VBool false
  /\ config_get (ConverterConfig config_dict) "image_download_timeout" (VInt 120) = VInt 120.
Proof. split; reflexivity. Qed.

(** C10: for every configuration dict, with or without the two download
    options, the image downloads of a conversion run get [timeout=None]:
    [requests.get] is called with no time limit. *)
Theorem conversion_download_timeout_none (config_dict : py_dict) :
  run_download_timeout config_dict = VNone.
Proof.
  unfold run_download_timeout, download_timeout.
  replace (dict_get (pandoc_options (ConverterConfig config_dict)) "limit_image_download" (VBool true))
    with (VBool false); [reflexivity|].
  unfold pandoc_options, dict_get.
  rewrite lookup_insert_ne by discriminate.
  rewrite lookup_insert_ne by discriminate.
  rewrite lookup_insert_ne by discriminate.
  rewrite lookup_insert_eq. reflexivity.
Qed.

(** What the code around it expects: the UI's dict, or no options at
    all, given straight to [_predownload_external_images] would give a
    timeout of 90 seconds. *)
Example download_timeout_intended :
  download_timeout ui_config = VInt 90 /\ download_timeout ∅ = VInt 90.
Proof. split; reflexivity. Qed.

End DownloadOptionsProofs.


Section FactoryProofs.
Import Registry Factory.

Lemma rfind_aux_app (c : ascii) (l1 l2 : list ascii) (i : nat) (acc : option nat) :
  Path.rfind_aux c (app l1 l2) i acc
  = Path.rfind_aux c l2 (i + length l1) (Path.rfind_aux c l1 i acc).
Proof.
  revert i acc. induction l1 as [|x l1 IH]; intros i acc; simpl.
  - by rewrite Nat.add_0_r.
  - rewrite IH. f_equal. lia.
Qed.

Lemma rfind_aux_notin (c : ascii) (l : list ascii) (i : nat) (acc : option nat) :
  ~ In c l -> Path.rfind_aux c l i acc = acc.
Proof.
  revert i acc. induction l as [|x l IH]; intros i acc Hc; simpl; [done|].
  destruct (ascii_dec x c) as [->|]; [simpl in Hc; tauto|].
  apply IH. simpl in Hc. tauto.
Qed.

Lemma rfind_aux_acc (c : ascii) (l : list ascii) (i : nat) (acc : option nat) :
  Path.rfind_aux c l i acc
  = match Path.rfind_aux c l i None with Some k => Some k | None => acc end.
Proof.
  revert i acc. induction l as [|x l IH]; intros i acc; simpl; [done|].
  rewrite (IH (S i) (if ascii_dec x c then Some i else acc)),
    (IH (S i) (if ascii_dec x c then Some i else None)).
  destruct (Path.rfind_aux c l (S i) None); [done|].
  by destruct (ascii_dec x c).
Qed.

Lemma rfind_aux_shift (c : ascii) (l : list ascii) (i j : nat) (acc : option nat) :
  Path.rfind_aux c l (i + j) (option_map (Nat.add i) acc)
  = option_map (Nat.add i) (Path.rfind_aux c l j acc).
Proof.
  revert j acc. induction l as [|x l IH]; intros j acc; simpl; [done|].
  replace (S (i + j)) with (i + S j)%nat by lia. rewrite <- IH.
  f_equal. by destruct (ascii_dec x c).
Qed.

Lemma rfind_aux_bound (c : ascii) (l : list ascii) (i : nat) (acc : option nat) (k : nat) :
  Path.rfind_aux c l i acc = Some k -> acc = Some k \/ (i <= k < i + length l)%nat.
Proof.
  revert i acc. induction l as [|x l IH]; intros i acc H; simpl in *; [by left|].
  apply IH in H as [H|H]; [|right; lia].
  destruct (ascii_dec x c); [injection H as <-; right; lia | by left].
Qed.

Lemma skipn_app_cons {A} (la r : list A) (x : A) :
  skipn (S (length la)) (app la (x :: r)) = r.
Proof. induction la as [|y la IH]; simpl; auto. Qed.

Lemma skipn_add {A} (a b : nat) (l : list A) : skipn (a + b) l = skipn b (skipn a l).
Proof. revert l. induction a as [|a IH]; intros [|x l]; simpl; auto. by destruct b. Qed.

(** The extension of a path only depends on its last component. *)
Lemma splitext_ext_last_component (p n : string) (la : list ascii) :
  list_ascii_of_string p = app la ("/"%char :: list_ascii_of_string n) ->
  ~ In "/"%char (list_ascii_of_string n) ->
  snd (Path.splitext p) = snd (Path.splitext n).
Proof.
  intros Hp Hn. unfold Path.splitext. rewrite Hp.
  set (ln := list_ascii_of_string n) in *.
  assert (Hs : Path.rfind "/" (app la ("/"%char :: ln)) = Some (length la)).
  { unfold Path.rfind. rewrite rfind_aux_app. simpl.
    by rewrite rfind_aux_notin. }
  assert (Hs' : Path.rfind "/" ln = None) by (by apply rfind_aux_notin).
  assert (Hd : Path.rfind "." (app la ("/"%char :: ln))
               = match option_map (Nat.add (S (length la))) (Path.rfind "." ln) with
                 | Some k => Some k | None => Path.rfind "." la end).
  { unfold Path.rfind. rewrite rfind_aux_app. simpl.
    rewrite rfind_aux_acc.
    pose proof (rfind_aux_shift "." ln (S (length la)) 0 None) as Hsh.
    rewrite Nat.add_0_r in Hsh. simpl in Hsh. by rewrite Hsh. }
  rewrite Hs, Hs', Hd.
  destruct (Path.rfind "." ln) as [d|] eqn:Hdl; simpl.
  - rewrite (proj2 (Nat.leb_le (length la) (length la + d))) by lia.
    replace (length la + d - length la)%nat with d by lia.
    change (skipn 0 ln) with ln.
    rewrite skipn_app_cons, Nat.sub_0_r.
    destruct (existsb (fun a => negb (Ascii.eqb a ".")) (firstn d ln)); simpl; [|done].
    f_equal. replace (S (length la + d)) with (S (length la) + d)%nat by lia.
    by rewrite skipn_add, skipn_app_cons.

  - destruct (Path.rfind "." la) as [d'|] eqn:Hdl'; [|done].
    apply rfind_aux_bound in Hdl' as [Hdl'|Hdl']; [done|].
    destruct d' as [|d']; [done|].
    by rewrite (proj2 (Nat.leb_gt (length la) d')) by lia.
Qed.

Lemma join_path_ext (folder n : string) :
  ~ In "/"%char (list_ascii_of_string n) ->
  snd (Path.splitext (join_path folder n)) = snd (Path.splitext n).
Proof.
  intros Hn. unfold join_path.
  destruct (PyStr.startswith ["/"%char] (list_ascii_of_string n)) eqn:Hst.
  { done. }
  destruct (String.eqb folder "") eqn:He; simpl.
  { apply String.eqb_eq in He as ->. done. }
  destruct (ends_with_slash folder) eqn:Hsl.
  - unfold ends_with_slash in Hsl.
    destruct (last (list_ascii_of_string folder)) as [x|] eqn:Hl; [|done].
    apply Ascii.eqb_eq in Hsl as ->. apply last_Some in Hl as [la Hla].
    apply (splitext_ext_last_component _ _ la); [|done].
    rewrite list_ascii_of_string_app, Hla, <- app_assoc. done.
  - apply (splitext_ext_last_component _ _ (list_ascii_of_string folder)); [|done].
    by rewrite !list_ascii_of_string_app.
Qed.

End FactoryProofs.

Section FactoryProofs2.
Import Registry Factory.

(** X1: [create_processor] falls back to SimpleProcessor exactly when the
    factory's [can_process] is false; otherwise it creates the last
    registered class claiming the extension, or PandocProcessor. *)
Theorem create_processor_by_can_process (classes : list processor_class)
    (pandoc_installed : bool) (file_path : string) :
  create_processor classes pandoc_installed file_path
  = if factory_can_process classes pandoc_installed file_path
    then match last_claimant classes (Path.lower (snd (Path.splitext file_path))) with
         | Some c => c
         | None => PandocProcessor
         end
    else SimpleProcessor.
Proof.
  unfold create_processor, factory_can_process. rewrite extensions_map_last.
  destruct (last_claimant _ _); [done|].
  by destruct (is_supported_format _ _).
Qed.

Lemma find_supported_files_cons (classes : list processor_class) (pandoc_available : bool)
    (folder_path f_name : string) (is_file : bool) (rest : list (string * bool)) :
  ~ In "/"%char (list_ascii_of_string f_name) ->
  find_supported_files classes pandoc_available folder_path ((f_name, is_file) :: rest)
  = if is_file && factory_can_process classes pandoc_available (join_path folder_path f_name)
    then join_path folder_path f_name
         :: find_supported_files classes pandoc_available folder_path rest
    else find_supported_files classes pandoc_available folder_path rest.
Proof.
  intros Hn. simpl. unfold factory_can_process. rewrite join_path_ext by done.
  destruct is_file; simpl; [|done].
  destruct (get_all_supported_extensions classes !! _); simpl; [done|].
  unfold is_supported_format. by destruct pandoc_available.
Qed.

(** X3: [_find_supported_files] lists exactly the joined paths of the listed
    files (not directories) for which the factory's [can_process] holds. *)
Theorem find_supported_files_spec (classes : list processor_class) (pandoc_available : bool)
    (folder_path : string) (listing : list (string * bool))
    (Hnames : Forall (fun e => ~ In "/"%char (list_ascii_of_string (fst e))) listing)
    (p : string) :
  In p (find_supported_files classes pandoc_available folder_path listing)
  <-> exists f_name, In (f_name, true) listing
      /\ p = join_path folder_path f_name
      /\ factory_can_process classes pandoc_available p = true.
Proof.
  induction listing as [|[f_name is_file] rest IH].
  { simpl. split; [done|]. by intros (? & [] & _). }
  inversion Hnames as [|? ? Hn Hrest]; subst. simpl in Hn.
  rewrite find_supported_files_cons by done.
  specialize (IH Hrest).
  destruct is_file eqn:Hf; simpl;
    destruct (factory_can_process classes pandoc_available (join_path folder_path f_name)) eqn:Hc;
    simpl; rewrite ?IH; split.
  - intros [<-|(n & Hin & -> & Hok)]; [by exists f_name; auto|].
    exists n. auto.
  - intros (n & [Heq|Hin] & -> & Hok); [injection Heq as ->; by left|].
    right. exists n. auto.
  - intros (n & Hin & -> & Hok). exists n. auto.
  - intros (n & [Heq|Hin] & -> & Hok); [injection Heq as ->; congruence|].
    exists n. auto.
  - intros (n & Hin & -> & Hok). exists n. auto.
  - intros (n & [Heq|Hin] & -> & Hok); [discriminate|]. exists n. auto.
  - intros (n & Hin & -> & Hok). exists n. auto.
  - intros (n & [Heq|Hin] & -> & Hok); [discriminate|]. exists n. auto.
Qed.

Lemma find_supported_files_spec_witness :
  Forall (fun e => ~ In "/"%char (list_ascii_of_string (fst e)))
    [("report.pdf", true); ("notes", false); ("paper.docx", true); ("run.exe", true)]
  /\ In "in/paper.docx"
       (find_supported_files default_processor_classes true "in"
          [("report.pdf", true); ("notes", false); ("paper.docx", true); ("run.exe", true)]).
Proof.
  assert (Hf : Forall (fun e => ~ In "/"%char (list_ascii_of_string (fst e)))
    [("report.pdf", true); ("notes", false); ("paper.docx", true); ("run.exe", true)]).
  { repeat constructor; simpl; intuition discriminate. }
  split; [exact Hf|].
  apply (proj2 (find_supported_files_spec default_processor_classes true "in" _ Hf "in/paper.docx")).
  exists "paper.docx". split; [simpl; tauto|]. split; vm_compute; reflexivity.
Defined.

(** X2: Registering a new class makes it the class created for its extensions. *)
Theorem register_processor_dispatch (classes : list processor_class) (c : processor_class)
    (pandoc_installed : bool) (file_path : string) :
  existsb (fun c' => String.eqb (cls_name c') (cls_name c)) classes = false ->
  In (Path.lower (snd (Path.splitext file_path))) (supported_extensions c) ->
  create_processor (register_processor classes c) pandoc_installed file_path = c.
Proof.
  intros Hnew Hext. unfold register_processor. rewrite Hnew.
  unfold create_processor. rewrite extensions_map_last. unfold last_claimant.
  rewrite List.filter_app. simpl.
  replace (existsb _ (supported_extensions c)) with true.
  { by rewrite last_snoc. }
  symmetry. apply existsb_exists. eexists. split; [exact Hext|]. by apply String.eqb_eq.
Qed.

Lemma register_processor_dispatch_witness :
  existsb (fun c' => String.eqb (cls_name c') "HwpProcessor") default_processor_classes = false
  /\ create_processor
       (register_processor default_processor_classes
          {| cls_name := "HwpProcessor"; supported_extensions := [".hwp"; ".md"] |})
       true "docs/Notes.MD"
     = {| cls_name := "HwpProcessor"; supported_extensions := [".hwp"; ".md"] |}.
Proof.
  split; [vm_compute; reflexivity|].
  apply register_processor_dispatch; vm_compute; [reflexivity|tauto].
Defined.

End FactoryProofs2.

Section BaseProcessorProofs.
Import Registry BaseProcessor.

(** X4: [BaseDocumentProcessor.can_process] passes the class and the path to
    [_is_common_temp_file], which takes one argument besides the class, so
    it raises a TypeError; so do the PDF, PowerPoint and Excel overrides
    that call it first. *)
Theorem can_process_raises_type_error (cls : processor_class) (file_path : string) :
  (exists e, base_can_process cls file_path = Exc e)
  /\ (exists e, pdf_can_process file_path = Exc e)
  /\ (exists e, powerpoint_can_process file_path = Exc e)
  /\ (exists e, excel_can_process file_path = Exc e).
Proof. repeat split; eexists; reflexivity. Qed.

End BaseProcessorProofs.

Section ImageExtensionProofs.
Import ImageExtension.

Lemma magic_extension_cases (b : list Z) :
  In (magic_extension b) [".jpg"; ".png"; ".gif"; ".bmp"; ".tif"; ".webp"].
Proof.
  unfold magic_extension.
  repeat match goal with |- context [if ?c then _ else _] => destruct c end;
  simpl; tauto.
Qed.

(** X5: [get_image_extension] always returns an extension starting with a dot;
    when Pillow gives no format or raises, it is one of the six extensions
    of the magic-number table. *)
Theorem get_image_extension_dot (pillow_format : list Z -> outcome string) (b : list Z) :
  exists e, get_image_extension pillow_format b = Some e
  /\ PyStr.startswith ["."%char] (list_ascii_of_string e) = true
  /\ (match pillow_format b with Ok fmt => fmt = "" | Exc _ => True end ->
      In e [".jpg"; ".png"; ".gif"; ".bmp"; ".tif"; ".webp"]).
Proof.
  unfold get_image_extension.
  destruct (pillow_format b) as [fmt|msg].
  - destruct (String.eqb (Path.lower fmt) "jpeg") eqn:Hj.
    { eexists. split; [reflexivity|]. split; [reflexivity|]. intros ->. done. }
    destruct (String.eqb (Path.lower fmt) "") eqn:He; simpl.
    + eexists. split; [reflexivity|]. split.
      * pose proof (magic_extension_cases b) as H. simpl in H.
        destruct H as [<-|[<-|[<-|[<-|[<-|[<-|[]]]]]]]; reflexivity.
      * intros _. apply magic_extension_cases.
    + eexists. split; [reflexivity|]. split; [reflexivity|].
      intros ->. done.
  - eexists. split; [reflexivity|]. split.
    + pose proof (magic_extension_cases b) as H. simpl in H.
      destruct H as [<-|[<-|[<-|[<-|[<-|[<-|[]]]]]]]; reflexivity.
    + intros _. apply magic_extension_cases.
Qed.

End ImageExtensionProofs.

Section SafeRemoveProofs.
Import SafeRemove.

Lemma remove_attempts_calls (rmtree : nat -> rmtree_outcome) (delay : Z) (fuel a : nat) :
  let '(r, tried) := remove_attempts rmtree delay a fuel in
  tried = seq a (length tried) /\ (length tried <= fuel)%nat.
Proof.
  revert a. induction fuel as [|fuel IH]; intros a.
  { simpl. split; [done|lia]. }
  cbn [remove_attempts].
  destruct (Nat.ltb 0 a && Z.ltb delay 0).
  { simpl. split; [done|lia]. }
  destruct (rmtree a); [simpl; split; [done|lia]| |simpl; split; [done|lia]].
  specialize (IH (S a)).
  destruct (remove_attempts rmtree delay (S a) fuel) as [r tried]. simpl.
  destruct IH as [Ht Hl]. split; [by rewrite <- Ht|lia].
Qed.

Lemma remove_attempts_true (rmtree : nat -> rmtree_outcome) (delay : Z) (fuel a : nat) :
  fst (remove_attempts rmtree delay a fuel) = true
  <-> exists k, (a <= k < a + fuel)%nat /\ rmtree k = RmOk
      /\ (forall j, (a <= j < k)%nat -> rmtree j = RmPermissionError)
      /\ (k = 0%nat \/ (0 <= delay)%Z).
Proof.
  revert a. induction fuel as [|fuel IH]; intros a; simpl.
  { split; [done|]. intros (k & Hk & _). lia. }
  destruct (Nat.ltb 0 a && Z.ltb delay 0) eqn:Hs.
  { simpl. split; [done|]. intros (k & Hk & _ & _ & Hd).
    apply andb_true_iff in Hs as [H1 H2]. apply Nat.ltb_lt in H1. apply Z.ltb_lt in H2.
    lia. }
  apply andb_false_iff in Hs.
  destruct (rmtree a) eqn:Ha; simpl.
  - split; [|done]. intros _. exists a. split; [lia|]. split; [done|].
    split; [intros j Hj; lia|].
    destruct Hs as [Hs|Hs]; [apply Nat.ltb_ge in Hs; left; lia|apply Z.ltb_ge in Hs; by right].
  - specialize (IH (S a)).
    destruct (remove_attempts rmtree delay (S a) fuel) as [r tried] eqn:Hr. simpl in *.
    rewrite IH. split.
    + intros (k & Hk & Hok & Hperm & Hd). exists k. split; [lia|]. split; [done|].
      split; [|done]. intros j Hj.
      destruct (decide (j = a)) as [->|]; [done|]. apply Hperm. lia.
    + intros (k & Hk & Hok & Hperm & Hd).
      destruct (decide (k = a)) as [->|]; [congruence|].
      exists k. split; [lia|]. split; [done|]. split; [|done].
      intros j Hj. apply Hperm. lia.
  - split; [done|]. intros (k & Hk & Hok & Hperm & Hd).
    destruct (decide (k = a)) as [->|]; [congruence|].
    rewrite Hperm in Ha by lia. discriminate.
Qed.

(** X6: [safe_remove_directory] returns True exactly when the directory is
    absent or some attempt succeeds after only permission errors (with a
    non-negative delay when it is not the first attempt). *)
Theorem safe_remove_directory_result (rmtree : nat -> rmtree_outcome)
    (dir_exists : bool) (max_attempts delay : Z) :
  fst (safe_remove_directory rmtree dir_exists max_attempts delay) = true
  <-> dir_exists = false
      \/ exists k, (k < Z.to_nat max_attempts)%nat /\ rmtree k = RmOk
         /\ (forall j, (j < k)%nat -> rmtree j = RmPermissionError)
         /\ (k = 0%nat \/ (0 <= delay)%Z).
Proof.
  unfold safe_remove_directory. destruct dir_exists; simpl.
  - rewrite remove_attempts_true. split.
    + intros (k & Hk & ? & Hperm & ?). right. exists k. split; [lia|].
      split; [done|]. split; [|done]. intros j Hj. apply Hperm. lia.
    + intros [?|(k & Hk & ? & Hperm & ?)]; [done|]. exists k. split; [lia|].
      split; [done|]. split; [|done]. intros j Hj. apply Hperm. lia.
  - tauto.
Qed.

(** X7: [safe_remove_directory] tries [rmtree] on attempts 0, 1, ... in order,
    at most [max_attempts] times, and never when the directory is absent. *)
Theorem safe_remove_directory_calls (rmtree : nat -> rmtree_outcome)
    (dir_exists : bool) (max_attempts delay : Z) :
  let '(r, tried) := safe_remove_directory rmtree dir_exists max_attempts delay in
  tried = seq 0 (length tried) /\ (length tried <= Z.to_nat max_attempts)%nat
  /\ (dir_exists = false -> tried = []).
Proof.
  unfold safe_remove_directory. destruct dir_exists; simpl.
  - pose proof (remove_attempts_calls rmtree delay (Z.to_nat max_attempts) 0) as H.
    destruct (remove_attempts _ _ _ _) as [r tried]. split; [tauto|]. split; [tauto|done].
  - repeat split; lia.
Qed.

End SafeRemoveProofs.

Section ConfigDictProofs.
Import DownloadOptions ConfigDict.

(** X8: [ConverterConfig.from_dict (c.to_dict())] gives back [c]. *)
Theorem config_dict_round_trip (c : converter_config) :
  from_dict (to_dict c) = c.
Proof. destruct c. vm_compute. reflexivity. Qed.

End ConfigDictProofs.


Section ExcelTextProofs.
Import CsvScore ExcelText.

Lemma string_length_list (s : string) :
  String.length s = length (list_ascii_of_string s).
Proof. induction s as [|a s IH]; simpl; auto. Qed.

Lemma take_str_list (n : nat) (s : string) :
  list_ascii_of_string (take_str n s) = take n (list_ascii_of_string s).
Proof.
  unfold take_str. revert n. induction s as [|a s IH]; intros [|n]; simpl; auto.
  by rewrite IH.
Qed.

Lemma replace_single_list (c : ascii) (new s : string) :
  list_ascii_of_string (PyStr.replace (String c "") new s)
  = flat_map (fun x => if Ascii.eqb c x then list_ascii_of_string new else [x])
      (list_ascii_of_string s).
Proof.
  unfold PyStr.replace. simpl.
  rewrite list_ascii_of_string_of_list_ascii, replace_fuel_single by lia. done.
Qed.

Lemma flat_map_single_length (f : ascii -> ascii) (l : list ascii) :
  length (flat_map (fun x => [f x]) l) = length l.
Proof. induction l as [|x l IH]; simpl; auto. Qed.

Lemma replace_char_length (c d : ascii) (s : string) :
  String.length (PyStr.replace (String c "") (String d "") s) = String.length s.
Proof.
  rewrite !string_length_list, replace_single_list. simpl.
  induction (list_ascii_of_string s) as [|x l IH]; simpl; [done|].
  destruct (Ascii.eqb c x); simpl; by rewrite IH.
Qed.

Lemma drop_spaces_in (l : list ascii) (x : ascii) : In x (drop_spaces l) -> In x l.
Proof. induction l as [|a l IH]; simpl; [done|]. destruct (is_space a); simpl; tauto. Qed.

Lemma drop_spaces_length (l : list ascii) : (length (drop_spaces l) <= length l)%nat.
Proof. induction l as [|a l IH]; simpl; [done|]. destruct (is_space a); simpl; lia. Qed.

Lemma drop_spaces_prefix (l : list ascii) : exists sp, l = app sp (drop_spaces l).
Proof.
  induction l as [|a l IH]; simpl; [by exists []|].
  destruct (is_space a); [|by exists []].
  destruct IH as [sp Hsp]. exists (a :: sp). simpl. by rewrite <- Hsp.
Qed.

Lemma strip_in (s : string) (x : ascii) :
  In x (list_ascii_of_string (strip s)) -> In x (list_ascii_of_string s).
Proof.
  unfold strip. rewrite list_ascii_of_string_of_list_ascii.
  intros H. apply in_rev, drop_spaces_in, in_rev, drop_spaces_in in H. done.
Qed.

Lemma strip_length (s : string) :
  (length (list_ascii_of_string (strip s)) <= length (list_ascii_of_string s))%nat.
Proof.
  unfold strip. rewrite list_ascii_of_string_of_list_ascii, length_rev.
  etrans; [apply drop_spaces_length|]. rewrite length_rev. apply drop_spaces_length.
Qed.

Lemma no_char_take_str (c : ascii) (n : nat) (s : string) :
  ~ In c (list_ascii_of_string s) -> ~ In c (list_ascii_of_string (take_str n s)).
Proof. rewrite take_str_list. intros H Hin. apply in_firstn_in in Hin. tauto. Qed.

(** X9: [_clean_column_name] gives a non-empty name of at most 50 characters
    that cannot break a table row or line. *)
Theorem clean_column_name_safe (col_name : option string) :
  let s := clean_column_name col_name in
  (0 < String.length s <= 50)%nat
  /\ ~ In "|"%char (list_ascii_of_string s)
  /\ ~ In "010"%char (list_ascii_of_string s)
  /\ ~ In "013"%char (list_ascii_of_string s).
Proof.
  unfold clean_column_name.
  destruct col_name as [name|]; [|simpl; split; [lia|]; intuition discriminate].
  destruct (existsb (String.eqb (strip name)) [""; "nan"; "NaN"; "None"]) eqn:Hx.
  { simpl. split; [lia|]. intuition discriminate. }
  assert (Hne : strip name <> "").
  { intros He. rewrite He in Hx. discriminate. }
  set (c1 := PyStr.replace "|" "_" (strip name)).
  set (c2 := PyStr.replace nl " " c1).
  set (c3 := PyStr.replace cr " " c2).
  assert (Hlen : String.length c3 = String.length (strip name)).
  { unfold c3, c2, c1, nl, cr. by rewrite !replace_char_length. }
  assert (Hpos : (0 < String.length c3)%nat).
  { rewrite Hlen. destruct (strip name); [done|simpl; lia]. }
  assert (Hp : ~ In "|"%char (list_ascii_of_string c3)).
  { unfold c3, c2, c1, nl, cr.
    apply replace_keeps_out; [apply replace_keeps_out|]; [|simpl; intuition discriminate..].
    apply replace_single_removes. discriminate. }
  assert (Hn : ~ In "010"%char (list_ascii_of_string c3)).
  { unfold c3, c2, nl, cr.
    apply replace_keeps_out; [|simpl; intuition discriminate].
    apply replace_single_removes. discriminate. }
  assert (Hr : ~ In "013"%char (list_ascii_of_string c3)).
  { unfold c3, cr. apply replace_single_removes. discriminate. }
  destruct (50 <? String.length c3)%nat eqn:Hl.
  - apply Nat.ltb_lt in Hl.
    split.
    + rewrite string_length_app, string_length_list, take_str_list, length_take,
        <- string_length_list, Nat.min_l by lia. simpl. lia.
    + repeat split; apply no_char_app; try (apply no_char_take_str; assumption);
        simpl; intuition discriminate.
  - apply Nat.ltb_ge in Hl. split; [lia|]. auto.
Qed.

End ExcelTextProofs.

Section EscapeProofs.
Import CsvScore ExcelText.
Local Opaque Ascii.eqb.

Lemma unescaped_app (c : ascii) (p : option ascii) (l1 l2 : list ascii) :
  unescaped_count c p (app l1 l2)
  = (unescaped_count c p l1 + unescaped_count c (fold_left (fun _ x => Some x) l1 p) l2)%nat.
Proof.
  revert p. induction l1 as [|x l1 IH]; intros p; simpl; [done|]. rewrite IH. lia.
Qed.

Lemma unescaped_notin (c : ascii) (p : option ascii) (l : list ascii) :
  ~ In c l -> unescaped_count c p l = 0%nat.
Proof.
  revert p. induction l as [|x l IH]; intros p Hc; simpl; [done|].
  destruct (Ascii.eqb_spec x c) as [->|]; [simpl in Hc; tauto|].
  simpl. apply IH. simpl in Hc. tauto.
Qed.

Lemma unescaped_prev (c : ascii) (p p' : option ascii) (l : list ascii) :
  p <> Some "\"%char -> (unescaped_count c p' l <= unescaped_count c p l)%nat.
Proof.
  intros Hp. destruct l as [|x l]; simpl; [done|].
  destruct (Ascii.eqb x c); simpl; [|done].
  rewrite (bool_decide_eq_false_2 (p = _)) by done.
  destruct (bool_decide (p' = _)); simpl; lia.
Qed.

Lemma unescaped_take (c : ascii) (p : option ascii) (n : nat) (l : list ascii) :
  (unescaped_count c p (take n l) <= unescaped_count c p l)%nat.
Proof.
  rewrite <- (take_drop n l) at 2. rewrite unescaped_app. lia.
Qed.

Lemma is_space_backslash : is_space "\"%char = false.
Proof. reflexivity. Qed.

Lemma unescaped_drop_spaces (c : ascii) (p : option ascii) (l : list ascii) :
  p <> Some "\"%char ->
  (unescaped_count c None (drop_spaces l) <= unescaped_count c p l)%nat.
Proof.
  revert p. induction l as [|x l IH]; intros p Hp; simpl; [lia|].
  destruct (is_space x) eqn:Hx.
  - etrans; [apply (IH (Some x))|].
    + intros [= ->]. by rewrite is_space_backslash in Hx.
    + lia.
  - apply (unescaped_prev c p None (x :: l)). done.
Qed.

Lemma unescaped_strip (c : ascii) (s : string) :
  (unescaped_count c None (list_ascii_of_string (strip s))
   <= unescaped_count c None (list_ascii_of_string s))%nat.
Proof.
  unfold strip. rewrite list_ascii_of_string_of_list_ascii.
  set (l1 := drop_spaces (list_ascii_of_string s)).
  destruct (drop_spaces_prefix (rev l1)) as [sp Hsp].
  assert (Hl1 : l1 = app (rev (drop_spaces (rev l1))) (rev sp)).
  { rewrite <- rev_app_distr, <- Hsp. by rewrite rev_involutive. }
  etrans; [|apply (unescaped_drop_spaces c None); done].
  fold l1. rewrite Hl1 at 2. rewrite unescaped_app. lia.
Qed.

Lemma unescaped_escape_self (c : ascii) (p : option ascii) (l : list ascii) :
  c <> "\"%char ->
  unescaped_count c p (flat_map (fun x => if Ascii.eqb c x then ["\"%char; c] else [x]) l)
  = 0%nat.
Proof.
  intros Hc. revert p. induction l as [|x l IH]; intros p; simpl; [done|].
  destruct (Ascii.eqb_spec c x) as [<-|Hx]; simpl.
  - destruct (Ascii.eqb_spec "\" c); [congruence|]. simpl.
    rewrite Ascii.eqb_refl. simpl. apply IH.
  - destruct (Ascii.eqb_spec x c); [congruence|]. simpl. apply IH.
Qed.

Lemma unescaped_escape_other (c d : ascii) (p : option ascii) (l : list ascii) :
  c <> "\"%char -> d <> c ->
  unescaped_count c p (flat_map (fun x => if Ascii.eqb d x then ["\"%char; d] else [x]) l)
  = unescaped_count c p l.
Proof.
  intros Hc Hd. revert p. induction l as [|x l IH]; intros p; simpl; [done|].
  destruct (Ascii.eqb_spec d x) as [<-|Hx]; simpl.
  - destruct (Ascii.eqb_spec "\" c); [congruence|].
    destruct (Ascii.eqb_spec d c); [congruence|]. simpl. by rewrite IH.
  - by rewrite IH.
Qed.

Lemma escape_in (d x : ascii) (l : list ascii) :
  In x (flat_map (fun y => if Ascii.eqb d y then ["\"%char; d] else [y]) l) ->
  In x l \/ x = "\"%char.
Proof.
  intros H. apply in_flat_map in H as (y & Hy & Hx).
  destruct (Ascii.eqb_spec d y) as [<-|]; simpl in Hx; [|intuition congruence].
  destruct Hx as [<-|[<-|[]]]; auto.
Qed.

Lemma collapse_ws_space (b : bool) (l : list ascii) (x : ascii) :
  In x (collapse_ws_aux b l) -> is_space x = true -> x = " "%char.
Proof.
  revert b. induction l as [|y l IH]; intros b; simpl; [done|].
  destruct (is_space y) eqn:Hy; [destruct b|]; simpl; intros Hin Hs.
  - by apply (IH true).
  - destruct Hin as [<-|Hin]; [done|]. by apply (IH true).
  - destruct Hin as [<-|Hin]; [congruence|]. by apply (IH false).
Qed.

Lemma unescaped_zero_last (c : ascii) (l : list ascii) :
  unescaped_count c None l = 0%nat ->
  forall pre post, l = app pre (c :: post) -> last pre = Some "\"%char.
Proof.
  intros H pre post ->. rewrite unescaped_app in H. simpl in H.
  rewrite Ascii.eqb_refl in H. simpl in H.
  assert (Hf : fold_left (fun _ x => Some x) pre None = Some "\"%char).
  { destruct (bool_decide_reflect (fold_left (fun _ x => Some x) pre None = Some "\"%char));
      [done|simpl in H; lia]. }
  clear H. revert Hf.
  induction pre as [|x pre _] using rev_ind; intros Hf; simpl in *; [done|].
  rewrite fold_left_app in Hf. simpl in Hf. by rewrite last_snoc.
Qed.

Lemma replace_escape_list (c : ascii) (s : string) :
  list_ascii_of_string (PyStr.replace (String c "") (String "\" (String c "")) s)
  = flat_map (fun x => if Ascii.eqb c x then ["\"%char; c] else [x]) (list_ascii_of_string s).
Proof. by rewrite replace_single_list. Qed.

Lemma truncate_500 (s : string) :
  let t := if (500 <? String.length s)%nat then take_str 497 s ++ "..." else s in
  (length (list_ascii_of_string t) <= 500)%nat
  /\ (forall x, In x (list_ascii_of_string t) -> In x (list_ascii_of_string s) \/ x = "."%char)
  /\ (forall c, c <> "."%char ->
      (unescaped_count c None (list_ascii_of_string t)
       <= unescaped_count c None (list_ascii_of_string s))%nat).
Proof.
  simpl. destruct (500 <? String.length s)%nat eqn:Hl.
  - apply Nat.ltb_lt in Hl. rewrite string_length_list in Hl.
    rewrite list_ascii_of_string_app, take_str_list. split; [|split].
    + rewrite length_app, length_take, Nat.min_l by lia. simpl. lia.
    + intros x Hx. apply in_app_or in Hx as [Hx|Hx]; [left; by apply (in_firstn_in 497)|].
      right. simpl in Hx. intuition.
    + intros c Hc. rewrite unescaped_app.
      rewrite (unescaped_notin c _ (list_ascii_of_string "...")).
      * pose proof (unescaped_take c None 497 (list_ascii_of_string s)). lia.
      * simpl. intuition.
  - apply Nat.ltb_ge in Hl. rewrite string_length_list in Hl. split; [lia|].
    split; [auto|]. intros; lia.
Qed.

(** X10: [_clean_cell_content] gives at most 500 characters, no whitespace but
    plain spaces (so no line break or tab), and every '|', '[' and ']'
    right after a backslash. *)
Theorem clean_cell_content_safe (cell_value : option string) :
  let s := list_ascii_of_string (clean_cell_content cell_value) in
  (length s <= 500)%nat
  /\ (forall x, In x s -> is_space x = true -> x = " "%char)
  /\ (forall c, In c ["|"; "["; "]"]%char ->
      forall pre post, s = app pre (c :: post) -> last pre = Some "\"%char).
Proof.
  unfold clean_cell_content.
  destruct cell_value as [v|].
  2:{ simpl. split; [lia|]. split; [done|]. intros c _ pre post Hs. by destruct pre. }
  destruct (String.eqb v "" || String.eqb (strip v) ""
            || existsb (String.eqb (Path.lower v)) ["nan"; "none"; "null"]).
  { simpl. split; [lia|]. split; [done|]. intros c _ pre post Hs. by destruct pre. }
  set (c4 := collapse_ws (PyStr.replace cr " "
               (PyStr.replace nl " " (PyStr.replace crlf " " (strip v))))).
  set (c7 := PyStr.replace "]" "\]" (PyStr.replace "[" "\[" (PyStr.replace "|" "\|" c4))).
  assert (Hc7 : list_ascii_of_string c7
    = flat_map (fun x => if Ascii.eqb "]" x then ["\"%char; "]"%char] else [x])
       (flat_map (fun x => if Ascii.eqb "[" x then ["\"%char; "["%char] else [x])
         (flat_map (fun x => if Ascii.eqb "|" x then ["\"%char; "|"%char] else [x])
           (list_ascii_of_string c4)))).
  { unfold c7. by rewrite !replace_escape_list. }
  assert (Hsp : forall x, In x (list_ascii_of_string c7) -> is_space x = true -> x = " "%char).
  { intros x Hx Hs. rewrite Hc7 in Hx.
    apply escape_in in Hx as [Hx| ->]; [|done].
    apply escape_in in Hx as [Hx| ->]; [|done].
    apply escape_in in Hx as [Hx| ->]; [|done].
    unfold c4, collapse_ws in Hx. rewrite list_ascii_of_string_of_list_ascii in Hx.
    by apply collapse_ws_space in Hx. }
  assert (Hesc : forall c, In c ["|"; "["; "]"]%char ->
            unescaped_count c None (list_ascii_of_string c7) = 0%nat).
  { intros c Hc. rewrite Hc7. simpl in Hc.
    destruct Hc as [<-|[<-|[<-|[]]]].
    - rewrite !unescaped_escape_other by discriminate. by apply unescaped_escape_self.
    - rewrite unescaped_escape_other by discriminate. by apply unescaped_escape_self.
    - by apply unescaped_escape_self. }
  destruct (truncate_500 c7) as (Hlen & Hin & Hcount).
  set (c8 := if (500 <? String.length c7)%nat then take_str 497 c7 ++ "..." else c7) in *.
  split; [|split].
  - etrans; [apply strip_length|]. done.
  - intros x Hx Hs. apply strip_in, Hin in Hx as [Hx| ->]; [by apply Hsp|done].
  - intros c Hc. apply unescaped_zero_last.
    pose proof (unescaped_strip c c8). pose proof (Hesc c Hc).
    assert (c <> "."%char) by (simpl in Hc; intuition congruence).
    pose proof (Hcount c ltac:(done)). lia.
Qed.

End EscapeProofs.

Section TableProofs.
Import CsvScore ExcelText.

Lemma truncate_props (m n : nat) (s : string) :
  (n + 3 <= m)%nat ->
  let t := if (m <? String.length s)%nat then take_str n s ++ "..." else s in
  (length (list_ascii_of_string t) <= m)%nat
  /\ (forall x, In x (list_ascii_of_string t) -> In x (list_ascii_of_string s) \/ x = "."%char)
  /\ (forall c, c <> "."%char ->
      (unescaped_count c None (list_ascii_of_string t)
       <= unescaped_count c None (list_ascii_of_string s))%nat).
Proof.
  intros Hnm. simpl. destruct (m <? String.length s)%nat eqn:Hl.
  - apply Nat.ltb_lt in Hl. rewrite string_length_list in Hl.
    rewrite list_ascii_of_string_app, take_str_list. split; [|split].
    + rewrite length_app, length_take, Nat.min_l by lia. simpl. lia.
    + intros x Hx. apply in_app_or in Hx as [Hx|Hx]; [left; by apply (in_firstn_in n)|].
      right. simpl in Hx. intuition.
    + intros c Hc. rewrite unescaped_app.
      rewrite (unescaped_notin c _ (list_ascii_of_string "...")).
      * pose proof (unescaped_take c None n (list_ascii_of_string s)). lia.
      * simpl. intuition.
  - apply Nat.ltb_ge in Hl. rewrite string_length_list in Hl. split; [lia|].
    split; [auto|]. intros; lia.
Qed.

Lemma unescaped_prev_same (c : ascii) (p p' : option ascii) (l : list ascii) :
  p <> Some "\"%char -> p' <> Some "\"%char ->
  unescaped_count c p l = unescaped_count c p' l.
Proof.
  intros Hp Hp'. pose proof (unescaped_prev c p p' l Hp).
  pose proof (unescaped_prev c p' p l Hp'). lia.
Qed.

Lemma unescaped_replace_char (c d e : ascii) (p : option ascii) (l : list ascii) :
  d <> c -> e <> c -> d <> "\"%char -> e <> "\"%char ->
  unescaped_count c p (flat_map (fun x => if Ascii.eqb d x then [e] else [x]) l)
  = unescaped_count c p l.
Proof.
  intros Hdc Hec Hd He. revert p. induction l as [|x l IH]; intros p; [done|].
  cbn [flat_map]. destruct (Ascii.eqb_spec d x) as [<-|]; cbn [app unescaped_count].
  - destruct (Ascii.eqb_spec e c); [congruence|]. destruct (Ascii.eqb_spec d c); [congruence|].
    simpl. rewrite IH. apply unescaped_prev_same; congruence.
  - by rewrite IH.
Qed.

Lemma fallback_cell_safe (cell : string) :
  unescaped_count "|" None (list_ascii_of_string (fallback_cell cell)) = 0%nat
  /\ ~ In "010"%char (list_ascii_of_string (fallback_cell cell)).
Proof.
  unfold fallback_cell.
  destruct (String.eqb cell "" || String.eqb (strip cell) ""); [simpl; tauto|].
  set (cs := PyStr.replace cr " " (PyStr.replace nl " " (PyStr.replace "|" "\|" cell))).
  assert (Hu : unescaped_count "|" None (list_ascii_of_string cs) = 0%nat).
  { unfold cs, cr, nl. rewrite !replace_single_list. cbn [list_ascii_of_string].
    rewrite !unescaped_replace_char by discriminate.
    by apply unescaped_escape_self. }
  assert (Hn : ~ In "010"%char (list_ascii_of_string cs)).
  { unfold cs, cr, nl. apply replace_keeps_out; [|simpl; intuition discriminate].
    apply replace_single_removes. discriminate. }
  destruct (truncate_props 100 97 cs ltac:(lia)) as (_ & Hin & Hc).
  split.
  - pose proof (Hc "|"%char ltac:(discriminate)). lia.
  - intros H. apply Hin in H as [H|H]; [tauto|discriminate].
Qed.

Lemma join_no_char (c : ascii) (sep : string) (parts : list string) :
  ~ In c (list_ascii_of_string sep) ->
  Forall (fun x => ~ In c (list_ascii_of_string x)) parts ->
  ~ In c (list_ascii_of_string (py_join sep parts)).
Proof.
  intros Hsep Hp. induction Hp as [|x parts Hx Hp IH]; [simpl; tauto|].
  destruct parts as [|y parts]; [done|].
  change (py_join sep (x :: y :: parts)) with (x ++ sep ++ py_join sep (y :: parts)).
  by repeat apply no_char_app.
Qed.

Lemma split_lines_aux_app (cur l rest : list ascii) :
  ~ In "010"%char l ->
  split_lines_aux cur (app l rest) = split_lines_aux (app (rev l) cur) rest.
Proof.
  revert cur. induction l as [|x l IH]; intros cur Hl; simpl; [done|].
  destruct (Ascii.eqb_spec x "010") as [->|]; [simpl in Hl; tauto|].
  rewrite IH by (simpl in Hl; tauto). by rewrite <- app_assoc.
Qed.

Lemma split_lines_join (parts : list string) :
  parts <> [] -> Forall (fun x => ~ In "010"%char (list_ascii_of_string x)) parts ->
  split_lines (py_join nl parts) = parts.
Proof.
  intros Hne Hp. induction Hp as [|x parts Hx Hp IH]; [done|].
  unfold split_lines. destruct parts as [|y parts].
  - simpl. rewrite <- (app_nil_r (list_ascii_of_string x)).
    rewrite split_lines_aux_app by done. simpl.
    by rewrite !app_nil_r, rev_involutive, string_of_list_ascii_of_string.
  - change (py_join nl (x :: y :: parts)) with (x ++ nl ++ py_join nl (y :: parts)).
    rewrite list_ascii_of_string_app. simpl.
    rewrite split_lines_aux_app by done. simpl.
    rewrite app_nil_r, rev_involutive, string_of_list_ascii_of_string.
    f_equal. by apply IH.
Qed.

Lemma unescaped_join_cells (p : option ascii) (cells : list string) :
  cells <> [] ->
  Forall (fun x => unescaped_count "|" None (list_ascii_of_string x) = 0%nat) cells ->
  unescaped_count "|" p (list_ascii_of_string (py_join " | " cells)) = pred (length cells).
Proof.
  intros Hne Hc. revert p. induction Hc as [|x cells Hx Hc IH]; intros p; [done|].
  assert (Hx' : forall q, unescaped_count "|" q (list_ascii_of_string x) = 0%nat).
  { intros q. pose proof (unescaped_prev "|" None q (list_ascii_of_string x) ltac:(done)). lia. }
  destruct cells as [|y cells]; [apply Hx'|].
  change (py_join " | " (x :: y :: cells)) with (x ++ " | " ++ py_join " | " (y :: cells)).
  rewrite !list_ascii_of_string_app, !unescaped_app, Hx'. simpl.
  rewrite IH by done. simpl. lia.
Qed.

Lemma row_line_pipes (cells : list string) :
  cells <> [] ->
  Forall (fun x => unescaped_count "|" None (list_ascii_of_string x) = 0%nat) cells ->
  unescaped_pipes ("| " ++ py_join " | " cells ++ " |") = S (length cells).
Proof.
  intros Hne Hc. unfold unescaped_pipes.
  rewrite !list_ascii_of_string_app, !unescaped_app, unescaped_join_cells by done.
  destruct cells; [done|]. simpl. lia.
Qed.

Lemma row_line_no_nl (cells : list string) :
  Forall (fun x => ~ In "010"%char (list_ascii_of_string x)) cells ->
  ~ In "010"%char (list_ascii_of_string ("| " ++ py_join " | " cells ++ " |")).
Proof.
  intros Hc. apply no_char_app; [simpl; intuition discriminate|].
  apply no_char_app; [|simpl; intuition discriminate].
  apply join_no_char; [simpl; intuition discriminate|done].
Qed.

(** X11: The fallback table of a non-empty frame, whose column names hold no
    '|' or newline and whose rows have one cell per column, has one line
    for the header, one for the separator and one per row, and every line
    has one unescaped '|' more than there are columns. *)
Theorem fallback_table_lines (df : data_frame) :
  df_empty df = false ->
  Forall (fun h => ~ In "|"%char (list_ascii_of_string h)
                   /\ ~ In "010"%char (list_ascii_of_string h)) (columns df) ->
  Forall (fun row => length row = length (columns df)) (rows df) ->
  let lines := split_lines (create_markdown_table_fallback df) in
  length lines = (2 + length (rows df))%nat
  /\ Forall (fun line => unescaped_pipes line = S (length (columns df))) lines.
Proof.
  intros Hne Hh Hr. unfold create_markdown_table_fallback. rewrite Hne.
  assert (Hcols : columns df <> []).
  { unfold df_empty in Hne. by destruct (columns df). }
  assert (Hcell : forall row, In row (rows df) ->
    Forall (fun x => unescaped_count "|" None (list_ascii_of_string x) = 0%nat
                     /\ ~ In "010"%char (list_ascii_of_string x)) (map fallback_cell row)).
  { intros row _. apply List.Forall_forall. intros x Hx. apply in_map_iff in Hx as (c & <- & _).
    apply fallback_cell_safe. }
  rewrite split_lines_join.
  - simpl. rewrite length_map. split; [done|].
    constructor; [|constructor].
    + apply row_line_pipes; [done|]. eapply Forall_impl; [exact Hh|].
      intros h [Hp _]. by apply unescaped_notin.
    + rewrite row_line_pipes, length_map; [done|by destruct (columns df)|].
      apply List.Forall_forall. intros x Hx. apply in_map_iff in Hx as (? & <- & _). done.
    + apply List.Forall_forall. intros line Hl. apply in_map_iff in Hl as (row & <- & Hrow).
      rewrite row_line_pipes, length_map.
      * f_equal. by apply (proj1 (List.Forall_forall _ _) Hr).
      * rewrite <- length_zero_iff_nil, length_map,
          (proj1 (List.Forall_forall _ _) Hr row Hrow), length_zero_iff_nil. done.
      * eapply Forall_impl; [exact (Hcell row Hrow)|]. intros ? ?; cbv beta in *; tauto.
  - done.
  - constructor; [|constructor].
    + apply row_line_no_nl. eapply Forall_impl; [exact Hh|]. intros ? ?; cbv beta in *; tauto.
    + apply row_line_no_nl. apply List.Forall_forall. intros x Hx.
      apply in_map_iff in Hx as (? & <- & _). simpl. intuition discriminate.
    + apply List.Forall_forall. intros line Hl. apply in_map_iff in Hl as (row & <- & Hrow).
      apply row_line_no_nl. eapply Forall_impl; [exact (Hcell row Hrow)|]. intros ? ?; cbv beta in *; tauto.
Qed.

Lemma fallback_table_lines_witness :
  let df := {| columns := ["name"; "note"]; rows := [["a"; "x|y"]; [""; "line1
line2"]];
               dtypes := ["object"; "object"] |} in
  df_empty df = false
  /\ Forall (fun h => ~ In "|"%char (list_ascii_of_string h)
                      /\ ~ In "010"%char (list_ascii_of_string h)) (columns df)
  /\ Forall (fun row => length row = length (columns df)) (rows df)
  /\ length (split_lines (create_markdown_table_fallback df)) = 4%nat.
Proof.
  simpl.
  assert (Hh : Forall (fun h => ~ In "|"%char (list_ascii_of_string h)
                      /\ ~ In "010"%char (list_ascii_of_string h)) ["name"; "note"]).
  { repeat constructor; simpl; intuition discriminate. }
  assert (Hr : Forall (fun row => length row = length ["name"; "note"])
                 [["a"; "x|y"]; [""; "line1
line2"]]).
  { repeat constructor. }
  split; [reflexivity|]. split; [exact Hh|]. split; [exact Hr|].
  exact (proj1 (fallback_table_lines
    {| columns := ["name"; "note"]; rows := [["a"; "x|y"]; [""; "line1
line2"]];
       dtypes := ["object"; "object"] |} eq_refl Hh Hr)).
Defined.

End TableProofs.

Section DataFrameProofs.
Import CsvScore ExcelText DataFrameDisplay.

Lemma prefix_len_nonneg (k : Z) (len : nat) :
  (0 <= k)%Z -> prefix_len k len = Nat.min (Z.to_nat k) len.
Proof. intros Hk. unfold prefix_len. by rewrite (proj2 (Z.leb_le 0 k) Hk). Qed.

(** X12: With non-negative limits, [_process_dataframe] reports [min(total,
    limit)] displayed rows and columns, and its fourth line is the
    truncation note exactly when one of them is below the total. *)
Theorem process_dataframe_truncation (dataframe_to_markdown : data_frame -> string)
    (max_rows_display max_columns_display : Z) (df : data_frame)
    (filename file_type metadata_type : string) :
  (0 <= max_rows_display)%Z -> (0 <= max_columns_display)%Z ->
  let '(md_content, metadata) :=
    dataframe_md_content dataframe_to_markdown max_rows_display max_columns_display
      df filename file_type metadata_type in
  total_rows metadata = length (rows df)
  /\ total_columns metadata = length (columns df)
  /\ displayed_rows metadata = Nat.min (length (rows df)) (Z.to_nat max_rows_display)
  /\ displayed_columns metadata = Nat.min (length (columns df)) (Z.to_nat max_columns_display)
  /\ ((displayed_rows metadata < total_rows metadata
       \/ displayed_columns metadata < total_columns metadata)%nat ->
      nth 3 md_content ""
      = "**Note:** Data truncated for display (showing "
        ++ str_int (Z.of_nat (displayed_rows metadata)) ++ " rows × "
        ++ str_int (Z.of_nat (displayed_columns metadata)) ++ " columns)")
  /\ (displayed_rows metadata = total_rows metadata ->
      displayed_columns metadata = total_columns metadata ->
      nth 3 md_content "" = nl ++ "## Data" ++ nl).
Proof.
  intros Hr Hc. unfold dataframe_md_content. cbv zeta.
  destruct (Z.gtb_spec (Z.of_nat (length (rows df))) max_rows_display) as [HR|HR];
    cbn [rows columns dtypes];
  destruct (Z.gtb_spec (Z.of_nat (length (columns df))) max_columns_display) as [HC|HC];
    cbn [rows columns dtypes];
  match goal with |- context [df_empty ?d] => destruct (df_empty d) end;
  cbn [rows columns dtypes displayed_rows displayed_columns total_rows total_columns];
  rewrite ?length_map, ?length_take, ?prefix_len_nonneg by done;
  (split; [done|]); (split; [done|]);
  (split; [lia|]); (split; [lia|]);
  split; intros; simpl; try reflexivity; lia.
Qed.

Lemma process_dataframe_truncation_witness :
  (0 <= 1)%Z /\ (0 <= 50)%Z
  /\ let '(md_content, metadata) :=
       dataframe_md_content (fun _ => "") 1 50
         {| columns := ["a"; "b"]; rows := [["1"; "2"]; ["3"; "4"]]; dtypes := [] |}
         "f.csv" "CSV" "pandas" in
     displayed_rows metadata = 1%nat.
Proof.
  split; [lia|]. split; [lia|].
  pose proof (process_dataframe_truncation (fun _ => "") 1 50
    {| columns := ["a"; "b"]; rows := [["1"; "2"]; ["3"; "4"]]; dtypes := [] |}
    "f.csv" "CSV" "pandas" ltac:(lia) ltac:(lia)) as H.
  destruct (dataframe_md_content _ _ _ _ _ _ _) as [md metadata].
  destruct H as (_ & _ & Hd & _). rewrite Hd. reflexivity.
Defined.

End DataFrameProofs.


Section FolderNamingProofs.
Import Registry Factory FolderNaming.

Lemma basename_last_component (p n : string) (la : list ascii) :
  list_ascii_of_string p = app la ("/"%char :: list_ascii_of_string n) ->
  ~ In "/"%char (list_ascii_of_string n) ->
  basename p = n.
Proof.
  intros Hp Hn. unfold basename. rewrite Hp.
  assert (Hs : Path.rfind "/" (app la ("/"%char :: list_ascii_of_string n))
               = Some (length la)).
  { unfold Path.rfind. rewrite rfind_aux_app. simpl.
    by rewrite rfind_aux_notin. }
  rewrite Hs, skipn_app_cons. apply string_of_list_ascii_of_string.
Qed.

Lemma basename_no_slash (n : string) :
  ~ In "/"%char (list_ascii_of_string n) -> basename n = n.
Proof.
  intros Hn. unfold basename.
  assert (Hs : Path.rfind "/" (list_ascii_of_string n) = None)
    by (by apply rfind_aux_notin).
  by rewrite Hs.
Qed.

Lemma basename_join_path (folder n : string) :
  ~ In "/"%char (list_ascii_of_string n) ->
  basename (join_path folder n) = n.
Proof.
  intros Hn. unfold join_path.
  destruct (PyStr.startswith ["/"%char] (list_ascii_of_string n)) eqn:Hst.
  { by apply basename_no_slash. }
  destruct (String.eqb folder "") eqn:He; simpl.
  { apply String.eqb_eq in He as ->. by apply basename_no_slash. }
  destruct (ends_with_slash folder) eqn:Hsl.
  - unfold ends_with_slash in Hsl.
    destruct (last (list_ascii_of_string folder)) as [x|] eqn:Hl; [|done].
    apply Ascii.eqb_eq in Hsl as ->. apply last_Some in Hl as [la Hla].
    apply (basename_last_component _ _ la); [|done].
    rewrite list_ascii_of_string_app, Hla, <- app_assoc. done.
  - apply (basename_last_component _ _ (list_ascii_of_string folder)); [|done].
    by rewrite !list_ascii_of_string_app.
Qed.

Lemma firstn_app_length {A} (l1 l2 : list A) : firstn (length l1) (app l1 l2) = l1.
Proof. induction l1 as [|x l1 IH]; simpl; [done|]. by rewrite IH. Qed.

Lemma skipn_app_length {A} (l1 l2 : list A) : skipn (length l1) (app l1 l2) = l2.
Proof. induction l1 as [|x l1 IH]; simpl; auto. Qed.

(** The stem of [stem.ext] is [stem]. *)
Lemma splitext_stem_ext (stem e : string) :
  ~ In "/"%char (list_ascii_of_string stem) ->
  existsb (fun a => negb (Ascii.eqb a ".")) (list_ascii_of_string stem) = true ->
  ~ In "/"%char (list_ascii_of_string e) ->
  ~ In "."%char (list_ascii_of_string e) ->
  Path.splitext (stem ++ "." ++ e) = (stem, "." ++ e).
Proof.
  intros Hs Hdots He1 He2. unfold Path.splitext.
  rewrite !list_ascii_of_string_app. cbn [list_ascii_of_string app].
  set (ls := list_ascii_of_string stem) in *. set (le := list_ascii_of_string e) in *.
  assert (Hd : Path.rfind "." (app ls ("."%char :: le)) = Some (length ls)).
  { unfold Path.rfind. rewrite rfind_aux_app. simpl.
    rewrite rfind_aux_notin by done. done. }
  assert (Hsl : Path.rfind "/" (app ls ("."%char :: le)) = None).
  { apply rfind_aux_notin. rewrite in_app_iff. simpl. intuition congruence. }
  cbv zeta. rewrite Hd, Hsl. cbv beta iota zeta.
  replace (0 <=? length ls)%nat with true by (symmetry; apply Nat.leb_le; lia).
  rewrite Nat.sub_0_r. change (skipn 0 ?x) with x.
  rewrite firstn_app_length, Hdots. cbn [andb].
  rewrite skipn_app_length. subst ls le.
  rewrite string_of_list_ascii_of_string. f_equal.
  simpl. f_equal. apply string_of_list_ascii_of_string.
Qed.

(** X13: two files of one folder with the same stem and different
    extensions get the same Markdown name, temporary directory and ZIP
    path in [process_folder]. *)
Theorem same_stem_same_outputs (folder output_base_path suffix stem e1 e2 : string) :
  ~ In "/"%char (list_ascii_of_string stem) ->
  existsb (fun a => negb (Ascii.eqb a ".")) (list_ascii_of_string stem) = true ->
  ~ In "/"%char (list_ascii_of_string e1) -> ~ In "."%char (list_ascii_of_string e1) ->
  ~ In "/"%char (list_ascii_of_string e2) -> ~ In "."%char (list_ascii_of_string e2) ->
  let zip_name_base := if String.eqb suffix "" then stem else stem ++ "_" ++ suffix in
  output_paths output_base_path suffix (join_path folder (stem ++ "." ++ e1))
  = (zip_name_base ++ ".md",
     join_path output_base_path (zip_name_base ++ "_temp"),
     join_path output_base_path (zip_name_base ++ ".zip"))
  /\ output_paths output_base_path suffix (join_path folder (stem ++ "." ++ e1))
     = output_paths output_base_path suffix (join_path folder (stem ++ "." ++ e2)).
Proof.
  intros Hs Hd H1 H1' H2 H2'.
  assert (Hno : forall e, ~ In "/"%char (list_ascii_of_string e) ->
                 ~ In "/"%char (list_ascii_of_string (stem ++ "." ++ e))).
  { intros e He. rewrite !list_ascii_of_string_app. cbn [list_ascii_of_string app].
    rewrite in_app_iff. simpl. intuition congruence. }
  unfold output_paths.
  rewrite !basename_join_path by auto.
  rewrite !splitext_stem_ext by auto. simpl. done.
Qed.

End FolderNamingProofs.

Lemma same_stem_same_outputs_witness :
  FolderNaming.output_paths "out" "" (Factory.join_path "docs" "report.pdf")
  = FolderNaming.output_paths "out" "" (Factory.join_path "docs" "report.docx").
Proof.
  exact (proj2 (same_stem_same_outputs "docs" "out" "" "report" "pdf" "docx"
                  ltac:(vm_compute; intuition discriminate) ltac:(reflexivity)
                  ltac:(vm_compute; intuition discriminate) ltac:(vm_compute; intuition discriminate)
                  ltac:(vm_compute; intuition discriminate) ltac:(vm_compute; intuition discriminate))).
Defined.

Section ImageResultProofs.
Import Image.

Ltac run_image :=
  repeat (simpl in *;
          match goal with
          | |- context [match ?x with _ => _ end] =>
              lazymatch x with
              | context [match _ with _ => _ end] => fail
              | _ => destruct x eqn:?
              end
          | |- context [if ?x then _ else _] =>
              lazymatch x with
              | context [if _ then _ else _] => fail
              | _ => destruct x eqn:?
              end
          end).

Section Generic.
Variable img : Type.
Variable open_image : list Z -> outcome img.
Variables width height : img -> Z.
Variable is_rgb : img -> bool.
Variable convert_rgb : img -> outcome img.
Variable thumbnail : Z -> img -> outcome img.
Variable save : img -> image_format -> outcome (list Z).
Variable b64encode : list Z -> string.

(** X14: the dict returned by [process_image] is consistent: an embedded
    image has embedding on, the chosen save format, fewer bytes than the
    threshold and the data URI of exactly those bytes in that format; an
    image that is not embedded has no data URI; a removed image has
    "exclude decorative" on and keeps its original bytes. *)
Theorem process_image_result_consistent (cfg : image_config) (image_bytes : list Z)
    (filename_suggestion : option string) :
  let r := process_image img open_image width height is_rgb convert_rgb thumbnail save
             b64encode cfg image_bytes filename_suggestion in
  (action r = Embed ->
     embed_small_images cfg = true
     /\ format r = save_format_of filename_suggestion
     /\ (Z.of_nat (length (bytes r)) < small_image_threshold_kb cfg * 1024)%Z
     /\ data_uri r = Some ("data:image/" ++ format_lower (format r) ++ ";base64,"
                          ++ b64encode (bytes r)))
  /\ (action r <> Embed -> data_uri r = None)
  /\ (action r = Remove -> exclude_decorative cfg = true /\ bytes r = image_bytes).
Proof.
  unfold process_image, run_process_image, process_body, prepare, to_save_mode,
    bind, lift, log, modify, ret.
  run_image; simpl; repeat split; intros; try discriminate; try congruence;
    repeat match goal with H : (_ && _) = true |- _ => apply andb_prop in H as [? ?] end;
    try done; try lia.
Qed.

End Generic.
End ImageResultProofs.

Section MediaKeepProofs.
Import MediaTree.

Lemma lookup_update_other (n m : string) (x : node) (d : dir) :
  n <> m -> lookup n (update m x d) = lookup n d.
Proof.
  intros Hnm. induction d as [|[k y] d IH]; simpl; [done|].
  destruct (String.eqb_spec k m) as [->|]; simpl.
  - destruct (String.eqb_spec m n); [congruence|done].
  - by rewrite IH.
Qed.

Lemma lookup_remove_other (n m : string) (d : dir) :
  n <> m -> lookup n (remove_entry m d) = lookup n d.
Proof.
  intros Hnm. induction d as [|[k y] d IH]; simpl; [done|].
  destruct (String.eqb_spec k m) as [->|]; simpl.
  - destruct (String.eqb_spec m n); [congruence|done].
  - by rewrite IH.
Qed.

Lemma lookup_app_none (n : string) (d e : dir) :
  lookup n d = None -> lookup n (app d e) = lookup n e.
Proof.
  induction d as [|[m y] d IH]; simpl; [done|].
  destruct (String.eqb m n); [discriminate|auto].
Qed.

Lemma lookup_none_not_in (n : string) (d : dir) :
  lookup n d = None -> ~ In n (map fst d).
Proof.
  induction d as [|[m y] d IH]; simpl; [tauto|].
  destruct (String.eqb_spec m n); [discriminate|]. intros H [?|?]; [congruence|tauto].
Qed.

Lemma move_loop_moved_prefix (todo : dir) (ex : list string) (moved kept : dir) :
  exists suffix, fst (move_loop todo ex moved kept) = app moved suffix.
Proof.
  revert ex moved kept. induction todo as [|[filename x] rest IH]; intros ex moved kept; simpl.
  { exists []. by rewrite app_nil_r. }
  destruct (existsb (String.eqb filename) ex); [destruct (os_remove_ok x)|]; auto.
  destruct (IH (filename :: ex) (app moved [(filename, x)]) kept) as [s Hs].
  exists ((filename, x) :: s). rewrite Hs, <- app_assoc. done.
Qed.

(** An entry whose name neither the parent nor the entries moved so far
    hold is moved with its contents. *)
Lemma move_loop_moves (todo : dir) (ex : list string) (moved kept : dir) (n : string) (x : node) :
  lookup n todo = Some x -> ~ In n ex -> ~ In n (map fst moved) ->
  lookup n (fst (move_loop todo ex moved kept)) = Some x.
Proof.
  revert ex moved kept. induction todo as [|[filename y] rest IH]; intros ex moved kept;
    simpl; [discriminate|].
  destruct (String.eqb_spec filename n) as [->|Hne].
  - intros [= ->] Hex Hmv.
    replace (existsb (String.eqb n) ex) with false.
    2:{ symmetry. apply not_true_is_false. intros Hb. apply existsb_exists in Hb as (m & Hm & Heq).
        apply String.eqb_eq in Heq. subst m. tauto. }
    destruct (move_loop_moved_prefix rest (n :: ex) (app moved [(n, x)]) kept) as [s ->].
    apply lookup_app_l. rewrite lookup_app_none by (by apply lookup_not_in).
    simpl. by rewrite String.eqb_refl.
  - intros Hl Hex Hmv.
    destruct (existsb (String.eqb filename) ex); [destruct (os_remove_ok y)|]; auto.
    apply IH; [done| |].
    + intros [?|?]; [congruence|tauto].
    + rewrite map_app. simpl. intros Hin. apply in_app_or in Hin as [?|[?|[]]]; [tauto|congruence].
Qed.

(** X15: the normalizer loses none of the parent media folder's entries
    and moves every nested entry whose name the parent does not hold into
    the parent with its contents; the other entries of the scratch
    directory are left as they were. *)
Theorem cleanup_nested_media_keeps_entries (output_dir media nested : dir) :
  lookup "media" output_dir = Some (Dir media) ->
  lookup "media" media = Some (Dir nested) ->
  exists media',
    lookup "media" (cleanup_nested_media_folders output_dir) = Some (Dir media')
    /\ (forall n, n <> "media" ->
          lookup n (cleanup_nested_media_folders output_dir) = lookup n output_dir)
    /\ (forall n x, n <> "media" -> lookup n media = Some x -> lookup n media' = Some x)
    /\ (forall n x, lookup n media = None -> lookup n nested = Some x ->
          lookup n media' = Some x).
Proof.
  intros Hm Hn. unfold cleanup_nested_media_folders. rewrite Hm, Hn.
  destruct (move_loop nested (map fst media) [] []) as [moved kept] eqn:Hloop.
  set (media1 := app (update "media" (Dir kept) media) moved).
  set (media2 := match kept with [] => remove_entry "media" media1 | _ :: _ => media1 end).
  assert (H2 : forall n, n <> "media" -> lookup n media2 = lookup n media1).
  { intros n Hne. subst media2. destruct kept; [|done]. by apply lookup_remove_other. }
  exists media2. split; [|split; [|split]].
  - by eapply lookup_update_hit.
  - intros n Hne. by apply lookup_update_other.
  - intros n x Hne Hx. rewrite H2 by done. subst media1.
    apply lookup_app_l. by rewrite lookup_update_other.
  - intros n x Hx Hnx.
    assert (Hne : n <> "media") by (intros ->; congruence).
    rewrite H2 by done. subst media1.
    rewrite lookup_app_none by (by rewrite lookup_update_other).
    pose proof (move_loop_moves nested (map fst media) [] [] n x Hnx
                  (lookup_none_not_in _ _ Hx) (fun H => H)) as Hmv.
    by rewrite Hloop in Hmv.
Qed.

End MediaKeepProofs.

Lemma cleanup_nested_media_keeps_entries_witness :
  let out := [("media", MediaTree.Dir [("a.png", MediaTree.File [1%Z]);
                 ("media", MediaTree.Dir [("b.png", MediaTree.File [2%Z])])])] in
  exists media', MediaTree.lookup "media" (MediaTree.cleanup_nested_media_folders out)
                   = Some (MediaTree.Dir media')
    /\ MediaTree.lookup "a.png" media' = Some (MediaTree.File [1%Z])
    /\ MediaTree.lookup "b.png" media' = Some (MediaTree.File [2%Z]).
Proof.
  intros out.
  destruct (cleanup_nested_media_keeps_entries out
              [("a.png", MediaTree.File [1%Z]);
               ("media", MediaTree.Dir [("b.png", MediaTree.File [2%Z])])]
              [("b.png", MediaTree.File [2%Z])] eq_refl eq_refl)
    as (media' & H1 & _ & H3 & H4).
  exists media'. split; [exact H1|]. split.
  - apply H3; [discriminate|reflexivity].
  - apply H4; reflexivity.
Defined.

Section ZipContentProofs.
Import Zip.

Section Generic.
Variable write_fails : nat -> bool.
Variable serialize : list (string * list Z) -> list Z.
Variable media_entries : list (string * string).
Variable zip_is_dir : bool.
Variable remove_fails : bool.

Lemma write_entries_ok (zip : string) (k : nat) (todo : list (string * string))
    (written w : list (string * list Z)) (v : list Z) (fs0 fs2 : fsys) :
  Forall (fun e => fst e <> zip) todo ->
  write_entries write_fails serialize zip k todo written (<[zip := v]> fs0) = (Ok w, fs2) ->
  Forall (fun e => is_Some (fs0 !! fst e)) todo
  /\ w = app written (map (stored fs0) todo)
  /\ exists v', fs2 = <[zip := v']> fs0.
Proof.
  revert k written v. induction todo as [|[src arc] rest IH]; intros k written v Hz; simpl.
  { intros [= <- <-]. rewrite app_nil_r. eauto. }
  inversion Hz as [|? ? Hsrc Hrest]; subst. simpl in Hsrc.
  destruct (write_fails k); [discriminate|].
  rewrite lookup_insert_ne by congruence.
  destruct (fs0 !! src) as [data|] eqn:Hd; [|discriminate].
  rewrite insert_insert_eq. intros H. apply IH in H as (H1 & H2 & H3); [|done].
  split; [constructor; [simpl; by rewrite Hd|done]|]. split; [|done].
  rewrite H2, <- app_assoc. cbn [map app]. f_equal. f_equal. unfold stored. simpl. by rewrite Hd.
Qed.

(** X16: when no source of the archive is the archive itself, a [True]
    result means every source exists and the only change to the file
    system is the archive, holding, in order, the Markdown file under its
    name, the metadata file (if given and present) as "metadata.json" and
    the media files, each with the bytes it had. *)
Theorem create_zip_success_contents (zip md arc : string) (meta : option string)
    (fs fs' : fsys) :
  zip <> md -> meta <> Some zip -> ~ In zip (map fst media_entries) ->
  create_zip_package write_fails serialize media_entries zip_is_dir remove_fails zip md arc meta fs
    = (Ok true, fs') ->
  let entries := archive_entries media_entries md arc meta fs in
  Forall (fun e => is_Some (fs !! fst e)) entries
  /\ fs' = <[zip := serialize (map (stored fs) entries)]> fs.
Proof.
  intros Hmd Hmeta Hmedia. unfold create_zip_package.
  destruct (fs !! md) as [[|b d]|] eqn:Hfmd; [discriminate| |discriminate].
  unfold zip_body. destruct zip_is_dir; [discriminate|].
  destruct (write_fails 0); [case_bool_decide; [destruct remove_fails|]; discriminate|].
  assert (He : archive_entries media_entries md arc meta (<[zip := serialize []]> fs)
               = archive_entries media_entries md arc meta fs).
  { unfold archive_entries. destruct meta as [p|]; [|done].
    rewrite lookup_insert_ne; [done|]. intros ->. by apply Hmeta. }
  rewrite He.
  assert (Hz : Forall (fun e => fst e <> zip) (archive_entries media_entries md arc meta fs)).
  { unfold archive_entries. constructor; [simpl; congruence|].
    apply Forall_app. split.
    - destruct meta as [p|]; [|constructor].
      destruct (negb _ && _); constructor; [|constructor]. simpl. intros ->. by apply Hmeta.
    - apply List.Forall_forall. intros [src a] Hin Hs. simpl in Hs. subst src.
      apply Hmedia. apply (in_map fst _ _ Hin). }
  destruct (write_entries _ _ _ _ _ _ _) as [[w|e] fs2] eqn:Hw;
    [|case_bool_decide; [destruct remove_fails|]; discriminate].
  destruct (write_fails _); [case_bool_decide; [destruct remove_fails|]; discriminate|].
  intros [= <-].
  apply write_entries_ok in Hw as (H1 & H2 & v' & ->); [|done].
  split; [done|]. rewrite H2. simpl. by rewrite insert_insert_eq.
Qed.

End Generic.
End ZipContentProofs.

Lemma create_zip_success_contents_witness :
  let serialize := fun w : list (string * list Z) => flat_map snd w in
  let fs : Zip.fsys := <["media/a.png" := [7%Z]]> {[ "doc.md" := [35%Z] ]} in
  Forall (fun e => is_Some (fs !! fst e))
    (Zip.archive_entries [("media/a.png", "media/a.png")] "doc.md" "doc.md" None fs)
  /\ <["doc.zip" := [35%Z; 7%Z]]> fs
     = <["doc.zip" := serialize (map (Zip.stored fs)
            (Zip.archive_entries [("media/a.png", "media/a.png")] "doc.md" "doc.md" None fs))]> fs.
Proof.
  intros serialize fs.
  apply (create_zip_success_contents (fun _ => false) serialize [("media/a.png", "media/a.png")]
           false false "doc.zip" "doc.md" "doc.md" None fs (<["doc.zip" := [35%Z; 7%Z]]> fs)).
  - discriminate.
  - discriminate.
  - simpl. intros [H|[]]. discriminate.
  - vm_compute. reflexivity.
Defined.


Section BundleTableProofs.
Import CsvScore ExcelText.

(** X17: a cell of the bundle fallback table has at most 150 characters,
    at most 50 in a "bundle" or "key" column, no line break and no '|'
    that is not preceded by a backslash. *)
Theorem bundle_cell_safe (col cell : string) :
  let c := list_ascii_of_string (bundle_cell col cell) in
  (length c <= if existsb (String.eqb (Path.lower col)) ["bundle"; "key"] then 50 else 150)%nat
  /\ unescaped_count "|" None c = 0%nat
  /\ ~ In "010"%char c /\ ~ In "013"%char c.
Proof.
  unfold bundle_cell.
  destruct (existsb (String.eqb (Path.lower (strip cell))) ["nan"; "none"; "null"]).
  { cbn. destruct (existsb (String.eqb (Path.lower col)) ["bundle"; "key"]); repeat split; auto with arith. }
  set (cs := PyStr.replace cr " " (PyStr.replace nl " " (PyStr.replace "|" "\|" cell))).
  assert (Hu : unescaped_count "|" None (list_ascii_of_string cs) = 0%nat).
  { unfold cs, cr, nl. rewrite !replace_single_list. cbn [list_ascii_of_string].
    rewrite !unescaped_replace_char by discriminate.
    by apply unescaped_escape_self. }
  assert (Hn : ~ In "010"%char (list_ascii_of_string cs)).
  { unfold cs, cr, nl. apply replace_keeps_out; [|simpl; intuition discriminate].
    apply replace_single_removes. discriminate. }
  assert (Hr : ~ In "013"%char (list_ascii_of_string cs)).
  { unfold cs, cr. apply replace_single_removes. discriminate. }
  assert (Hcase : forall m n, (n + 3 <= m)%nat ->
    let t := if (m <? String.length cs)%nat then take_str n cs ++ "..." else cs in
    (length (list_ascii_of_string t) <= m)%nat
    /\ unescaped_count "|" None (list_ascii_of_string t) = 0%nat
    /\ ~ In "010"%char (list_ascii_of_string t) /\ ~ In "013"%char (list_ascii_of_string t)).
  { intros m n Hmn. destruct (truncate_props m n cs Hmn) as (H1 & H2 & H3).
    split; [done|]. split; [pose proof (H3 "|"%char ltac:(discriminate)); lia|].
    split; intros H; apply H2 in H as [H|H]; (done || discriminate). }
  destruct (existsb (String.eqb (Path.lower col)) ["bundle"; "key"]); cbn [negb andb].
  - rewrite andb_true_r. apply (Hcase 50 47). lia.
  - rewrite andb_false_r. apply (Hcase 150 147). lia.
Qed.

Lemma length_zip_with_eq {A B C} (f : A -> B -> C) (l : list A) (k : list B) :
  length k = length l -> length (zip_with f l k) = length l.
Proof. intros H. rewrite length_zip_with. lia. Qed.

Lemma in_zip_with_inv {A B C} (f : A -> B -> C) (l : list A) (k : list B) (z : C) :
  In z (zip_with f l k) -> exists a b, In a l /\ z = f a b.
Proof.
  revert k. induction l as [|a l IH]; intros [|b k]; simpl; try tauto.
  intros [<-|H]; [exists a, b; auto|].
  destruct (IH k H) as (a' & b' & Ha & ->). exists a', b'. auto.
Qed.

(** X18: the bundle fallback table of a non-empty frame, whose column
    names hold no '|' or newline and whose rows have one cell per column,
    has one line for the header, one for the separator and one per row,
    and every line has one unescaped '|' more than there are columns. *)
Theorem bundle_table_lines (df : data_frame) :
  df_empty df = false ->
  Forall (fun h => ~ In "|"%char (list_ascii_of_string h)
                   /\ ~ In "010"%char (list_ascii_of_string h)) (columns df) ->
  Forall (fun row => length row = length (columns df)) (rows df) ->
  let lines := split_lines (create_bundle_table_fallback df) in
  length lines = (2 + length (rows df))%nat
  /\ Forall (fun line => unescaped_pipes line = S (length (columns df))) lines.
Proof.
  intros Hne Hh Hr. unfold create_bundle_table_fallback. rewrite Hne.
  assert (Hcols : columns df <> []).
  { unfold df_empty in Hne. by destruct (columns df). }
  assert (Hcell : forall row,
    Forall (fun x => unescaped_count "|" None (list_ascii_of_string x) = 0%nat
                     /\ ~ In "010"%char (list_ascii_of_string x))
           (zip_with bundle_cell (columns df) row)).
  { intros row. apply List.Forall_forall. intros x Hx.
    apply in_zip_with_inv in Hx as (col & cell & _ & ->).
    destruct (bundle_cell_safe col cell) as (_ & H1 & H2 & _). auto. }
  rewrite split_lines_join.
  - simpl. rewrite length_map. split; [done|].
    constructor; [|constructor].
    + apply row_line_pipes; [done|]. eapply Forall_impl; [exact Hh|].
      intros h [Hp _]. by apply unescaped_notin.
    + rewrite row_line_pipes, length_map; [done|by destruct (columns df)|].
      apply List.Forall_forall. intros x Hx. apply in_map_iff in Hx as (? & <- & _). done.
    + apply List.Forall_forall. intros line Hl. apply in_map_iff in Hl as (row & <- & Hrow).
      pose proof (proj1 (List.Forall_forall _ _) Hr row Hrow) as Hlen.
      rewrite row_line_pipes.
      * by rewrite length_zip_with_eq.
      * rewrite <- length_zero_iff_nil, length_zip_with_eq by done.
        rewrite length_zero_iff_nil. done.
      * eapply Forall_impl; [exact (Hcell row)|]. intros ? ?; cbv beta in *; tauto.
  - done.
  - constructor; [|constructor].
    + apply row_line_no_nl. eapply Forall_impl; [exact Hh|]. intros ? ?; cbv beta in *; tauto.
    + apply row_line_no_nl. apply List.Forall_forall. intros x Hx.
      apply in_map_iff in Hx as (? & <- & _). simpl. intuition discriminate.
    + apply List.Forall_forall. intros line Hl. apply in_map_iff in Hl as (row & <- & Hrow).
      apply row_line_no_nl. eapply Forall_impl; [exact (Hcell row)|]. intros ? ?; cbv beta in *; tauto.
Qed.

End BundleTableProofs.

Lemma bundle_table_lines_witness :
  let df := {| CsvScore.columns := ["bundle"; "key"; "en"];
               CsvScore.rows := [["app"; "title"; "a|b"]; ["app"; "nan"; "x
y"]];
               CsvScore.dtypes := ["object"; "object"; "object"] |} in
  let lines := ExcelText.split_lines (ExcelText.create_bundle_table_fallback df) in
  length lines = 4%nat
  /\ Forall (fun line => ExcelText.unescaped_pipes line = 4%nat) lines.
Proof.
  intros df.
  apply (bundle_table_lines df).
  - reflexivity.
  - repeat constructor; vm_compute; intuition discriminate.
  - repeat constructor.
Defined.
